(** * Dimensional Change Card Sort: trial generation, response handling and
    the results summary of [src/index.ts], embedded in Rocq. *)

From Stdlib Require Import List String Ascii ZArith QArith Qpower Qround Qabs Lia Lqa Bool DecimalString Permutation.
Import ListNotations.
Open Scope string_scope.

(** ** Data model *)

(** [interface Stimulus] *)
Record Stimulus := mkStimulus {
  img : string;
  name : string;
  shape : string;
  color : string
}.

(** [interface Trial]; [dimension?: string] is optional. *)
Record Trial := mkTrial {
  target : Stimulus;
  left : Stimulus;
  right : Stimulus;
  correct : Z;
  dimension : option string
}.

(** [const STIMULI] *)
Module STIMULI.
Definition brownRabbit := mkStimulus "assets/brown_rabbit.svg" "brown rabbit" "rabbit" "brown".
Definition whiteRabbit := mkStimulus "assets/white_rabbit.svg" "white rabbit" "rabbit" "white".
Definition brownBoat := mkStimulus "assets/brown_boat.svg" "brown boat" "boat" "brown".
Definition whiteBoat := mkStimulus "assets/white_boat.svg" "white boat" "boat" "white".
Definition blueBall := mkStimulus "assets/blue_ball.svg" "blue ball" "ball" "blue".
Definition orangeTruck := mkStimulus "assets/orange_truck.svg" "orange truck" "truck" "orange".
Definition blueTruck := mkStimulus "assets/blue_truck.svg" "blue truck" "truck" "blue".
Definition orangeBall := mkStimulus "assets/orange_ball.svg" "orange ball" "ball" "orange".
End STIMULI.
Import STIMULI.

(** Pre-defined trials (no [dimension] field). *)
Definition fixed (t l r : Stimulus) (c : Z) : Trial := mkTrial t l r c None.

Definition COLOR_PRACTICE_TRIALS : list Trial := [
  fixed brownRabbit brownBoat whiteRabbit 0;
  fixed whiteBoat brownBoat whiteRabbit 1;
  fixed brownBoat brownBoat whiteRabbit 0;
  fixed whiteRabbit brownBoat whiteRabbit 1;
  fixed brownRabbit whiteRabbit brownBoat 1 ]%Z.

Definition COLOR_TEST_TRIALS : list Trial := [
  fixed blueTruck blueBall orangeTruck 0;
  fixed orangeBall blueBall orangeTruck 1;
  fixed blueBall orangeTruck blueBall 1;
  fixed orangeTruck blueBall orangeTruck 1;
  fixed blueTruck orangeTruck blueBall 1 ]%Z.

Definition SHAPE_TEST_TRIALS : list Trial := [
  fixed orangeBall blueBall orangeTruck 0;
  fixed blueTruck blueBall orangeTruck 1;
  fixed orangeTruck orangeTruck blueBall 0;
  fixed blueBall orangeTruck blueBall 1;
  fixed blueTruck blueBall orangeTruck 1 ]%Z.

(** ** generateMixedTrials *)

(** The random source: [rng k] is the value of the [k]-th call to
    [Math.random()]. *)
Definition RandomSource := nat -> Q.

(** JS array indexing [a[z]]: [None] stands for [undefined]. *)
Definition js_index {A} (a : list A) (z : Z) : option A :=
  if (z <? 0)%Z then None else nth_error a (Z.to_nat z).

(** [const testStimuli] *)
Definition testStimuli : list Stimulus := [blueBall; orangeTruck; blueTruck; orangeBall].

(** One iteration of the [for] loop, with [r1], [r2] the two values drawn
    from [Math.random()] (target choice, then swap test).  [None] is the
    TypeError thrown when [target] is [undefined] and [target.color] /
    [target.shape] is read. *)
Definition mixed_trial_body (i : nat) (r1 r2 : Q) : option Trial :=
  let dimension := if Nat.eqb (Nat.modulo i 2) 0 then "color" else "shape" in
  let target := js_index testStimuli
                  (Qfloor (r1 * inject_Z (Z.of_nat (List.length testStimuli)))) in
  let choices := [blueBall; orangeTruck] in
  let choices := if negb (Qle_bool r2 (1 # 2)) then rev choices else choices in
  let c0 := nth 0 choices blueBall in
  let c1 := nth 1 choices blueBall in
  match target with
  | None => None
  | Some target =>
      let correct :=
        if String.eqb dimension "color"
        then (if String.eqb (color c0) (color target) then 0 else 1)%Z
        else (if String.eqb (shape c0) (shape target) then 0 else 1)%Z in
      Some (mkTrial target c0 c1 correct (Some dimension))
  end.

(** The loop [for (let i = 0; i < numTrials; i++)], [fuel] iterations left,
    [k] calls to [Math.random()] made so far, [mixedTrials] the array
    pushed to. *)
Fixpoint mixed_loop (rng : RandomSource) (fuel i k : nat) (mixedTrials : list Trial)
  : option (list Trial) :=
  match fuel with
  | O => Some mixedTrials
  | S fuel' =>
      match mixed_trial_body i (rng k) (rng (S k)) with
      | None => None
      | Some t => mixed_loop rng fuel' (S i) (S (S k)) (mixedTrials ++ [t])
      end
  end.

Definition generateMixedTrials (rng : RandomSource) (numTrials : nat) : option (list Trial) :=
  mixed_loop rng numTrials 0 0 [].

(** ** setupTrial: click handlers and timers *)

(** [String.prototype.toUpperCase] on ASCII text. *)
Definition ascii_upper (c : ascii) : ascii :=
  let n := nat_of_ascii c in
  if (Nat.leb 97 n && Nat.leb n 122)%bool then ascii_of_nat (n - 32)%nat else c.

Fixpoint toUpperCase (s : string) : string :=
  match s with
  | EmptyString => EmptyString
  | String c s' => String (ascii_upper c) (toUpperCase s')
  end.

(** The object passed to [jsPsych.finishTrial]. *)
Record FinishData := mkFinish {
  response : nat;
  fcorrect : bool;
  rt : Q
}.

(** The bodies of the callbacks handed to [setTimeout]. *)
Inductive Callback :=
| CbFinish (cardIndex : nat) (correct : bool)  (* feedback path, lines 174-180 *)
| CbPrompt.                                     (* 5 s reminder, lines 193-197 *)

Record Timer := mkTimer { due : Q; cb : Callback }.

(** Everything setupTrial reads or writes: the [responded] latch, pending
    timers, the calls to [jsPsych.finishTrial], the [#feedback] element's
    [textContent] / [className], the cards given the [highlight] class, the
    utterances spoken by [playAudio], and whether a handler threw. *)
Record TState := mkTState {
  responded : bool;
  timers : list Timer;
  finished : list FinishData;
  feedback : option (string * string);
  highlighted : list nat;
  spoken : list string;
  threw : bool
}.

(** The browser and host context of one setupTrial call. *)
Record Env := mkEnv {
  audio_enabled : bool;       (* state.audio_enabled *)
  speech_available : bool;    (* 'speechSynthesis' in window *)
  feedback_div : bool;        (* document.getElementById('feedback') !== null *)
  ncards : nat                (* document.querySelectorAll('.dccs-choice-card').length *)
}.

(** The events that reach the trial: a click on card [cardIndex] at time
    [now], or the [j]-th pending timer firing at time [now] while
    [jsPsych.getCurrentTrial()] is non-null iff [current_trial]. *)
Inductive Event :=
| Click (cardIndex : nat) (now : Q)
| Fire (j : nat) (now : Q) (current_trial : bool).

Definition set_responded (s : TState) : TState :=
  mkTState true (timers s) (finished s) (feedback s) (highlighted s) (spoken s) (threw s).
Definition set_timers (l : list Timer) (s : TState) : TState :=
  mkTState (responded s) l (finished s) (feedback s) (highlighted s) (spoken s) (threw s).
Definition add_timer (tm : Timer) (s : TState) : TState := set_timers (timers s ++ [tm]) s.
Definition add_finish (d : FinishData) (s : TState) : TState :=
  mkTState (responded s) (timers s) (finished s ++ [d]) (feedback s) (highlighted s) (spoken s) (threw s).
Definition set_feedback (text cls : string) (s : TState) : TState :=
  mkTState (responded s) (timers s) (finished s) (Some (text, cls)) (highlighted s) (spoken s) (threw s).
Definition add_highlight (n : nat) (s : TState) : TState :=
  mkTState (responded s) (timers s) (finished s) (feedback s) (highlighted s ++ [n]) (spoken s) (threw s).
Definition add_spoken (text : string) (s : TState) : TState :=
  mkTState (responded s) (timers s) (finished s) (feedback s) (highlighted s) (spoken s ++ [text]) (threw s).
Definition set_threw (s : TState) : TState :=
  mkTState (responded s) (timers s) (finished s) (feedback s) (highlighted s) (spoken s) true.

Fixpoint remove_nth {A} (j : nat) (l : list A) : list A :=
  match l, j with
  | [], _ => []
  | _ :: l', O => l'
  | x :: l', S j' => x :: remove_nth j' l'
  end.

Definition init_state : TState := mkTState false [] [] None [] [] false.

Definition msg_right := "That's right!".
Definition msg_same_color := "This is the same color.".
Definition msg_same_color_audio := "This is the same color, so you should choose this picture.".
Definition msg_prompt := "Choose one of the pictures.".

Section SetupTrial.
Variable env : Env.
Variable trial : Trial.
Variable dim : string.
Variable withFeedback : bool.
Variable startTime : Q.

(** [playAudio] *)
Definition playAudio (text : string) (s : TState) : TState :=
  if audio_enabled env && speech_available env then add_spoken text s else s.

(** [cards[trial.correct].classList.add('highlight')]; a [trial.correct]
    outside the NodeList gives [undefined] and a TypeError. *)
Definition highlight_correct (s : TState) : TState * bool :=
  match js_index (seq 0 (ncards env)) (correct trial) with
  | Some n => (add_highlight n s, false)
  | None => (set_threw s, true)
  end.

(** The click listener of card [cardIndex] (lines 153-188). *)
Definition on_click (cardIndex : nat) (now : Q) (s : TState) : TState :=
  if responded s then s else
  let s := set_responded s in
  let correct := Z.eqb (Z.of_nat cardIndex) (correct trial) in
  if withFeedback then
    let '(s, exc) :=
      if feedback_div env then
        if correct then (playAudio msg_right (set_feedback msg_right "dccs-feedback correct" s), false)
        else highlight_correct
               (playAudio msg_same_color_audio
                  (set_feedback msg_same_color "dccs-feedback incorrect" s))
      else (s, false) in
    if exc then s
    else add_timer (mkTimer (now + (if correct then 1500 else 2500)) (CbFinish cardIndex correct)) s
  else add_finish (mkFinish cardIndex correct (now - startTime)) s.

(** Running a timer callback at time [now]. *)
Definition run_callback (c : Callback) (now : Q) (current_trial : bool) (s : TState) : TState :=
  match c with
  | CbFinish cardIndex correct => add_finish (mkFinish cardIndex correct (now - startTime)) s
  | CbPrompt => if negb (responded s) && current_trial then playAudio msg_prompt s else s
  end.

(** One event.  A click only reaches a listener when it is on one of the
    [ncards] cards; a timer fires once, not before it is due. *)
Definition step (s : TState) (e : Event) : TState :=
  match e with
  | Click cardIndex now =>
      if Nat.ltb cardIndex (ncards env) then on_click cardIndex now s else s
  | Fire j now current_trial =>
      match nth_error (timers s) j with
      | Some tm =>
          if Qle_bool (due tm) now
          then run_callback (cb tm) now current_trial (set_timers (remove_nth j (timers s)) s)
          else s
      | None => s
      end
  end.

Definition run (evs : list Event) (s : TState) : TState := fold_left step evs s.

(** The synchronous part of [setupTrial] (lines 147-198), started at
    [performance.now() = startTime]. *)
Definition setupTrial : TState :=
  let s := playAudio (toUpperCase dim) init_state in
  if negb withFeedback then add_timer (mkTimer (startTime + 5000) CbPrompt) s else s.

End SetupTrial.

(** ** createResults: the accuracy column of the summary screen *)

(** A row of [jsPsych.data.get()]; fields a row lacks are [None]
    ([undefined]).  Only the fields the accuracy column reads are kept. *)
Record Row := mkRow {
  row_task : option string;
  row_phase : option string;
  row_correct : option bool
}.

(** [DataCollection.filter({key: v})]: keeps the rows whose field is
    strictly equal to [v]. *)
Definition field_is {A} (eqb : A -> A -> bool) (f : Row -> option A) (v : A) (r : Row) : bool :=
  match f r with Some x => eqb x v | None => false end.

Definition filter_task (v : string) : list Row -> list Row :=
  filter (field_is String.eqb row_task v).
Definition filter_phase (v : string) : list Row -> list Row :=
  filter (field_is String.eqb row_phase v).
Definition filter_correct (v : bool) : list Row -> list Row :=
  filter (field_is Bool.eqb row_correct v).

(** [DataCollection.count()] *)
Definition count (d : list Row) : Q := inject_Z (Z.of_nat (List.length d)).

(** JavaScript numbers (IEEE-754 binary64) as far as [/], [* 100] and
    [toFixed(0)] on counts go; a finite double is kept as the exact
    rational it denotes (the sign of zero is dropped: [toFixed] prints
    [-0] as [0]). *)
Inductive JsNum :=
| Num (q : Q)
| NaN
| Infinity
| NegInfinity.

(** [2^z] *)
Definition pow2 (z : Z) : Q := Qpower (2 # 1) z.

(** [floor(log2 x)] for a positive rational [x]. *)
Definition flog2 (x : Q) : Z :=
  let t := (Z.log2 (Qnum x) - Z.log2 (Zpos (Qden x)))%Z in
  if Qle_bool (pow2 t) x then t else (t - 1)%Z.

(** The integer nearest to [s], the even one on a tie. *)
Definition round_even (s : Q) : Z :=
  let f := Qfloor s in
  let r := s - inject_Z f in
  if Qeq_bool r (1 # 2) then (if Z.even f then f else f + 1)%Z
  else if Qle_bool r (1 # 2) then f else (f + 1)%Z.

(** A positive real rounded to the nearest multiple of [2^e], where
    [2^e] is the spacing of the doubles around it: 53 significant bits,
    and no spacing below [2^-1074] (the subnormals). *)
Definition round64_val (x : Q) : Q :=
  let e := Z.max (flog2 x - 52) (-1074) in
  inject_Z (round_even (x / pow2 e)) * pow2 e.

(** Round to nearest, ties to even; what rounds to [2^1024] overflows. *)
Definition round64_pos (x : Q) : JsNum :=
  let v := round64_val x in
  if Qle_bool (pow2 1024) v then Infinity else Num v.

Definition round64 (x : Q) : JsNum :=
  if Qeq_bool x 0 then Num 0
  else if Qle_bool 0 x then round64_pos x
  else match round64_pos (- x) with
       | Num v => Num (- v)
       | Infinity => NegInfinity
       | other => other
       end.

(** [a / b] on two doubles [a] and [b] (here counts, exact below 2^53). *)
Definition js_div (a b : Q) : JsNum :=
  if Qeq_bool b 0 then
    if Qeq_bool a 0 then NaN
    else if Qle_bool 0 a then Infinity else NegInfinity
  else round64 (a / b).

(** [x * c] for a positive double [c] *)
Definition js_mul_pos (x : JsNum) (c : Q) : JsNum :=
  match x with
  | Num q => round64 (q * c)
  | other => other
  end.

Definition string_of_Z (z : Z) : string := NilZero.string_of_int (Z.to_int z).

(** [Number.prototype.toFixed(0)] (values below 1e21): the sign is split
    off, then the integer [n] nearest to [x] is taken, the larger one on a
    tie. *)
Definition toFixed0 (x : JsNum) : string :=
  match x with
  | NaN => "NaN"
  | Infinity => "Infinity"
  | NegInfinity => "-Infinity"
  | Num q =>
      if Qle_bool 0 q then string_of_Z (Qfloor (q + (1 # 2)))
      else "-" ++ string_of_Z (Qfloor (- q + (1 # 2)))
  end.

(** [trials.filter({correct: true}).count() / trials.count() * 100] *)
Definition accuracy (trials : list Row) : JsNum :=
  js_mul_pos (js_div (count (filter_correct true trials)) (count trials)) 100.

(** The three accuracy cells [${xAccuracy.toFixed(0)}%] of the table
    returned by the [stimulus] function (lines 470-477 and 495-505). *)
Definition createResults_accuracy_cells (all : list Row) : string * string * string :=
  let data := filter_task "dccs" all in
  let colorTrials := filter_phase "color_test" data in
  let shapeTrials := filter_phase "shape_test" data in
  let mixedTrials := filter_phase "mixed" data in
  (toFixed0 (accuracy colorTrials) ++ "%",
   toFixed0 (accuracy shapeTrials) ++ "%",
   toFixed0 (accuracy mixedTrials) ++ "%").

(** The accuracy cell of phase [p]. *)
Definition phase_cell (all : list Row) (p : string) : string :=
  toFixed0 (accuracy (filter_phase p (filter_task "dccs" all))) ++ "%".


(** ** Specification predicates and concrete inputs *)

(** The dimension the generator assigns to trial [i]. *)
Definition dim_of (i : nat) : string := if Nat.even i then "color" else "shape".

(** [a] and [b] have the same value on the attribute of dimension [d]. *)
Definition same_on (d : string) (a b : Stimulus) : bool :=
  if String.eqb d "color" then String.eqb (color a) (color b)
  else if String.eqb d "shape" then String.eqb (shape a) (shape b)
  else false.

(** Exactly one of [left]/[right] matches [target] on [d], and [correct]
    is the index of that choice. *)
Definition well_posed (d : string) (t : Trial) : bool :=
  xorb (same_on d (left t) (target t)) (same_on d (right t) (target t)) &&
  Z.eqb (correct t) (if same_on d (left t) (target t) then 0 else 1)%Z.

(** Well-posedness on the trial's own [dimension] field. *)
Definition well_posed_own (t : Trial) : bool :=
  match dimension t with Some d => well_posed d t | None => false end.

(** The constant random source [Math.random = () => 0.5] of the test suite. *)
Definition rng_half : RandomSource := fun _ => 1 # 2.

(** generateMixedTrials(3) under [rng_half], evaluated. *)
Definition mixed_half_3 : list Trial :=
  Eval vm_compute in
    match generateMixedTrials rng_half 3 with Some ts => ts | None => [] end.

Definition is_finish (tm : Timer) : bool :=
  match cb tm with CbFinish _ _ => true | CbPrompt => false end.

(** Results reported or scheduled to be reported. *)
Definition pending (s : TState) : nat :=
  List.length (finished s) + List.length (filter is_finish (timers s)).

(** At most one result is ever pending, and none before a click was accepted. *)
Definition latch_inv (s : TState) : Prop :=
  (pending s <= 1)%nat /\ (responded s = false -> pending s = 0%nat).

(** The card of the first click that reaches a listener. *)
Definition accept (env : Env) (c : option nat) (e : Event) : option nat :=
  match c, e with
  | None, Click ci _ => if Nat.ltb ci (ncards env) then Some ci else None
  | _, _ => c
  end.

Definition first_accepted_click (env : Env) (evs : list Event) : option nat :=
  fold_left (accept env) evs None.

Definition click_inv (c : option nat) (s : TState) : Prop :=
  match c with
  | None =>
      responded s = false /\ finished s = [] /\
      Forall (fun tm => is_finish tm = false) (timers s)
  | Some ci =>
      responded s = true /\ Forall (fun d => response d = ci) (finished s) /\
      Forall (fun tm => match cb tm with CbFinish ci' _ => ci' = ci | CbPrompt => True end) (timers s)
  end.

(** A two-card screen with a [#feedback] element and audio off, showing
    the first color test trial. *)
Definition env_demo : Env := mkEnv false true true 2.
Definition trial_demo : Trial := fixed blueTruck blueBall orangeTruck 0%Z.

(** The observable part of the trial state: everything but the pending timers. *)
Definition observable (s : TState) :=
  (responded s, finished s, feedback s, highlighted s, spoken s, threw s).

(** A recorded DCCS trial of phase [p]. *)
Definition dccs_row (p : string) (c : bool) : Row := mkRow (Some "dccs") (Some p) (Some c).

(** A color test phase with 5 results, 4 of them correct, next to a
    row of another screen. *)
Definition rows_4_of_5 : list Row :=
  [dccs_row "color_test" true; dccs_row "color_test" true; dccs_row "color_test" false;
   dccs_row "color_test" true; dccs_row "color_test" true; mkRow None None None].

(** 23 correct results out of 40 in the mixed phase: [23 / 40 * 100] is
    57.5 exactly but 57.49999999999999 in doubles. *)
Definition rows_23_of_40 : list Row :=
  (repeat (dccs_row "mixed" true) 23 ++ repeat (dccs_row "mixed" false) 17)%list.

(** Rows recorded by the task in phase [p], and those of them with
    [correct = true]. *)
Definition in_phase (p : string) (r : Row) : bool :=
  field_is String.eqb row_task "dccs" r && field_is String.eqb row_phase p r.
Definition n_phase (all : list Row) (p : string) : nat :=
  List.length (filter (in_phase p) all).
Definition c_phase (all : list Row) (p : string) : nat :=
  List.length (filter (field_is Bool.eqb row_correct true) (filter (in_phase p) all)).

(** ** Global state and createTimeline *)

Definition DEFAULT_PRACTICE_TRIALS : Z := 5.
Definition DEFAULT_TEST_TRIALS : Z := 5.
Definition DEFAULT_MIXED_TRIALS : Z := 30.

(** [interface GameState] *)
Record GameState := mkGameState {
  audio_enabled_st : bool;
  current_phase : string;
  trials_completed : Z
}.

(** The value [resetState] assigns to [state]. *)
Definition resetState : GameState := mkGameState false "" 0.

(** [Array.prototype.slice(0, end)] on an integer [end]. *)
Definition js_slice0 {A} (l : list A) (e : Z) : list A :=
  let len := Z.of_nat (List.length l) in
  let final := if (e <? 0)%Z then Z.max (len + e) 0 else Z.min e len in
  firstn (Z.to_nat final) l.

(** [arr.forEach((x, index) => timeline.push(f(x, index)))], from index [i]. *)
Fixpoint map_index_from {A B} (f : A -> Z -> B) (i : Z) (l : list A) : list B :=
  match l with
  | [] => []
  | x :: l' => f x i :: map_index_from f (i + 1) l'
  end.

(** The [data] object of a trial screen. *)
Record ScreenData := mkScreenData {
  task : string;
  phase : string;
  trial_num : Z;
  data_dimension : string;
  correct_response : Z;
  data_target : string
}.

(** A trial screen: [stimulus] is [createTrialStimulus(trial.target,
    trial.left, trial.right, cue)], [on_load] calls [setupTrial(jsPsych,
    trial, load_phase, load_trialNum, load_dimension, load_feedback)]. *)
Record TrialScreen := mkTrialScreen {
  ts_trial : Trial;
  ts_cue : string;
  ts_data : ScreenData;
  load_phase : string;
  load_trialNum : Z;
  load_dimension : string;
  load_feedback : bool
}.

(** A button screen by its [choices] and the text its [on_load] narrates. *)
Record ButtonScreen := mkButtonScreen {
  bs_choices : list string;
  bs_narration : option string
}.

Inductive Screen :=
| SWelcome                   (* createWelcome *)
| SButton (b : ButtonScreen) (* the instruction screens *)
| STrial (t : TrialScreen)   (* createPracticeTrial / createTestTrial *)
| SResults.                  (* createResults *)

Definition createColorInstructions : list Screen := [
  SButton (mkButtonScreen ["Next"] (Some "We are going to play some games. In the COLOR game, choose the picture that's the same COLOR as the picture at the top of the screen. If it's BROWN, choose this picture."));
  SButton (mkButtonScreen ["Next"] (Some "If it's WHITE, choose this picture."));
  SButton (mkButtonScreen ["Start Practice"] (Some "Now you try.")) ].

Definition createColorTestInstructions : list Screen := [
  SButton (mkButtonScreen ["Start"] (Some "Now, we're going to play with some different SHAPES and COLORS. This time we'll use BALLS and TRUCKS that are ORANGE and BLUE."));
  SButton (mkButtonScreen ["Start"] (Some "Now it's your turn. Go as fast as you can without making mistakes.")) ].

Definition createShapeInstructions : Screen :=
  SButton (mkButtonScreen ["Start Shape Game"] (Some "Now, we're going to play the SHAPE game. In the SHAPE game, choose the picture that's the same SHAPE as the picture at the top.")).

Definition createMixedInstructions : Screen :=
  SButton (mkButtonScreen ["Start Mixed Trials"] (Some "We can also play both games together. Remember, when you see the word SHAPE, choose the picture that is the same shape. When you see the word COLOR, choose the picture that is the same color.")).

Definition createPracticeTrial (trial : Trial) (index : Z) : Screen :=
  STrial (mkTrialScreen trial "COLOR"
    (mkScreenData "dccs" "color_practice" (index + 1) "color" (correct trial) (name (target trial)))
    "color_practice" (index + 1) "color" true).

Definition createTestTrial (trial : Trial) (phase : string) (dimension : string) (index : Z) : Screen :=
  STrial (mkTrialScreen trial (toUpperCase dimension)
    (mkScreenData "dccs" phase (index + 1) dimension (correct trial) (name (target trial)))
    phase (index + 1) dimension false).

(** [mixedTrialsList.forEach((trial, index) => timeline.push(createTestTrial(
    jsPsych, trial, 'mixed', trial.dimension!, index)))]; a missing
    [dimension] makes [dimension.toUpperCase()] throw. *)
Fixpoint mixed_screens_from (i : Z) (l : list Trial) : option (list Screen) :=
  match l with
  | [] => Some []
  | t :: l' =>
      match dimension t with
      | None => None
      | Some d =>
          match mixed_screens_from (i + 1) l' with
          | None => None
          | Some ss => Some (createTestTrial t "mixed" d i :: ss)
          end
      end
  end.

(** The options object of createTimeline; absent fields take the defaults. *)
Record TimelineOptions := mkTimelineOptions {
  opt_practiceTrials : option Z;
  opt_testTrials : option Z;
  opt_mixedTrials : option Z;
  opt_showInstructions : option bool;
  opt_showResults : option bool
}.

(** A destructuring default: it applies when the field is undefined. *)
Definition with_default {A} (d : A) (o : option A) : A :=
  match o with Some x => x | None => d end.

Definition no_options : TimelineOptions := mkTimelineOptions None None None None None.

(** [createTimeline] (lines 544-615): resets [state], then builds the
    screen list; [None] is an exception thrown on the way. *)
Definition createTimeline (rng : RandomSource) (opts : TimelineOptions) (st : GameState)
  : GameState * option (list Screen) :=
  let practiceTrials := with_default DEFAULT_PRACTICE_TRIALS (opt_practiceTrials opts) in
  let testTrials := with_default DEFAULT_TEST_TRIALS (opt_testTrials opts) in
  let mixedTrials := with_default DEFAULT_MIXED_TRIALS (opt_mixedTrials opts) in
  let showInstructions := with_default true (opt_showInstructions opts) in
  let showResults := with_default true (opt_showResults opts) in
  let st := resetState in
  let timeline := (
    [SWelcome] ++ 
    (if showInstructions then createColorInstructions else []) ++ 
    map_index_from createPracticeTrial 0 (js_slice0 COLOR_PRACTICE_TRIALS practiceTrials) ++ 
    (if showInstructions then createColorTestInstructions else []) ++ 
    map_index_from (fun t i => createTestTrial t "color_test" "color" i) 0
      (js_slice0 COLOR_TEST_TRIALS testTrials) ++ 
    (if showInstructions then [createShapeInstructions] else []) ++ 
    map_index_from (fun t i => createTestTrial t "shape_test" "shape" i) 0
      (js_slice0 SHAPE_TEST_TRIALS testTrials) ++ 
    (if showInstructions then [createMixedInstructions] else []))%list in
  match generateMixedTrials rng (Z.to_nat mixedTrials) with
  | None => (st, None)
  | Some mixedTrialsList =>
      match mixed_screens_from 0 mixedTrialsList with
      | None => (st, None)
      | Some ms => (st, Some (timeline ++ ms ++ (if showResults then [SResults] else []))%list)
      end
  end.

(** The trial screens of a timeline, in order. *)
Definition trial_screens (tl : list Screen) : list TrialScreen :=
  flat_map (fun s => match s with STrial t => [t] | _ => [] end) tl.

Definition is_button (s : Screen) : bool :=
  match s with SButton _ => true | _ => false end.

(** The number of entries [slice(0, e)] keeps of a 5-trial array. *)
Definition slice_count (e : Z) : nat :=
  Z.to_nat (if (e <? 0)%Z then Z.max (5 + e) 0 else Z.min e 5).

(** The counts createTimeline works with, defaults applied. *)
Definition n_practice (opts : TimelineOptions) : nat :=
  slice_count (with_default DEFAULT_PRACTICE_TRIALS (opt_practiceTrials opts)).
Definition n_test (opts : TimelineOptions) : nat :=
  slice_count (with_default DEFAULT_TEST_TRIALS (opt_testTrials opts)).
Definition n_mixed (opts : TimelineOptions) : nat :=
  Z.to_nat (with_default DEFAULT_MIXED_TRIALS (opt_mixedTrials opts)).
Definition show_instructions (opts : TimelineOptions) : bool :=
  with_default true (opt_showInstructions opts).
Definition show_results (opts : TimelineOptions) : bool :=
  with_default true (opt_showResults opts).

(** The [phase], [trial_num] and [dimension] a trial screen records. *)
Definition screen_label (ts : TrialScreen) : string * Z * string :=
  (phase (ts_data ts), trial_num (ts_data ts), data_dimension (ts_data ts)).

(** [n] screens of phase [p] on dimension [d], numbered from 1. *)
Definition screen_labels (p d : string) (n : nat) : list (string * Z * string) :=
  map (fun k => (p, Z.of_nat (S k), d)) (seq 0 n).

(** The dimension of a generated trial, [trial.dimension!]. *)
Definition dim_str (t : Trial) : string :=
  match dimension t with Some d => d | None => "" end.

(** What a trial screen shows, records and sets up agree: the task tag,
    the recorded answer and target are the rendered trial's, the cue is the
    recorded dimension in upper case, [on_load] passes the recorded phase,
    number and dimension, feedback is on exactly in the practice phase, and
    the trial has one correct card on the recorded dimension. *)
Definition consistent_screen (ts : TrialScreen) : Prop :=
  let d := ts_data ts in
  task d = "dccs" /\
  correct_response d = correct (ts_trial ts) /\
  data_target d = name (target (ts_trial ts)) /\
  ts_cue ts = toUpperCase (data_dimension d) /\
  load_phase ts = phase d /\
  load_trialNum ts = trial_num d /\
  load_dimension ts = data_dimension d /\
  load_feedback ts = String.eqb (phase d) "color_practice" /\
  well_posed (data_dimension d) (ts_trial ts) = true.

(** createTimeline's options: two practice trials short of the list
    ([slice(0, -2)]), 3 test trials, 4 mixed trials and no results screen. *)
Definition opts_demo : TimelineOptions :=
  mkTimelineOptions (Some (-2)%Z) (Some 3%Z) (Some 4%Z) None (Some false).

(** A trial whose [correct] index names no card of a two-card screen, as
    [utils.setupTrial] accepts from outside the fixed lists. *)
Definition trial_bad_index : Trial := fixed blueTruck blueBall orangeTruck 2%Z.

(** A row recorded by another task. *)
Definition foreign_row : Row := mkRow (Some "flanker") (Some "color_test") (Some false).

(** ** Trial generation *)

Lemma even_mod2 (i : nat) : Nat.even i = Nat.eqb (Nat.modulo i 2) 0.
Proof.
  destruct (Nat.even i) eqn:E; symmetry.
  - apply Nat.even_spec in E. destruct E as [m ->]. apply Nat.eqb_eq.
    rewrite Nat.mul_comm. apply Nat.Div0.mod_mul.
  - assert (O : Nat.odd i = true) by (unfold Nat.odd; rewrite E; reflexivity).
    apply Nat.odd_spec in O. destruct O as [m ->]. apply Nat.eqb_neq.
    replace (2 * m + 1)%nat with (1 + m * 2)%nat by lia. rewrite Nat.Div0.mod_add. discriminate.
Qed.

Lemma js_index_testStimuli (z : Z) (s : Stimulus) :
  js_index testStimuli z = Some s ->
  s = blueBall \/ s = orangeTruck \/ s = blueTruck \/ s = orangeBall.
Proof.
  unfold js_index. destruct (z <? 0)%Z; [discriminate|].
  destruct (Z.to_nat z) as [|[|[|[|n]]]]; simpl; intro H; try (destruct n; discriminate);
    injection H; intros <-; tauto.
Qed.

Lemma mixed_trial_body_spec (i : nat) (r1 r2 : Q) (t : Trial) :
  mixed_trial_body i r1 r2 = Some t ->
  dimension t = Some (dim_of i) /\ well_posed (dim_of i) t = true.
Proof.
  unfold mixed_trial_body, dim_of. rewrite <- even_mod2.
  destruct (js_index testStimuli _) as [tg|] eqn:Etg; [|discriminate].
  apply js_index_testStimuli in Etg.
  intro H; injection H; intros <-; clear H.
  destruct (Nat.even i), (negb (Qle_bool r2 (1 # 2)));
    destruct Etg as [ -> | [ -> | [ -> | -> ]]]; split; reflexivity.
Qed.

Lemma mixed_trial_body_total (i : nat) (r1 r2 : Q) :
  0 <= r1 -> r1 < 1 -> exists t, mixed_trial_body i r1 r2 = Some t.
Proof.
  intros H0 H1. unfold mixed_trial_body.
  set (z := Qfloor (r1 * inject_Z (Z.of_nat (List.length testStimuli)))).
  assert (Hlo : (0 <= z)%Z).
  { unfold z. change 0%Z with (Qfloor 0). apply Qfloor_resp_le.
    simpl. change 0 with (0 * 4). apply Qmult_le_compat_r; [assumption|discriminate]. }
  assert (Hhi : (z < 4)%Z).
  { assert (Hq : inject_Z z < inject_Z 4).
    { apply Qle_lt_trans with (r1 * 4).
      - apply Qfloor_le.
      - change (inject_Z 4) with (1 * 4). apply Qmult_lt_compat_r; [reflexivity|assumption]. }
    rewrite <- Zlt_Qlt in Hq. exact Hq. }
  unfold js_index. replace (z <? 0)%Z with false by (symmetry; apply Z.ltb_ge; lia).
  destruct (nth_error testStimuli (Z.to_nat z)) eqn:E.
  - eexists. reflexivity.
  - apply nth_error_None in E. simpl in E. lia.
Qed.

Lemma mixed_loop_spec (rng : RandomSource) (fuel : nat) :
  forall i k acc ts, mixed_loop rng fuel i k acc = Some ts ->
  exists ts', ts = (acc ++ ts')%list /\ List.length ts' = fuel /\
    forall j t, nth_error ts' j = Some t ->
      dimension t = Some (dim_of (i + j)) /\ well_posed (dim_of (i + j)) t = true.
Proof.
  induction fuel as [|fuel IH]; simpl; intros i k acc ts H.
  - injection H; intros <-. exists []. rewrite app_nil_r. split; [reflexivity|split; [reflexivity|]].
    intros [|j] t Hj; discriminate.
  - destruct (mixed_trial_body i (rng k) (rng (S k))) as [t|] eqn:Eb; [|discriminate].
    destruct (IH _ _ _ _ H) as (ts' & -> & Hlen & Hall).
    exists (t :: ts'). split; [rewrite <- app_assoc; reflexivity|].
    split; [simpl; lia|].
    intros [|j] t' Hj; simpl in Hj.
    + injection Hj; intros <-. rewrite Nat.add_0_r. exact (mixed_trial_body_spec _ _ _ _ Eb).
    + replace (i + S j)%nat with (S i + j)%nat by lia. exact (Hall j t' Hj).
Qed.

Lemma mixed_loop_total (rng : RandomSource) (Hr : forall k, 0 <= rng k /\ rng k < 1) (fuel : nat) :
  forall i k acc, exists ts, mixed_loop rng fuel i k acc = Some ts.
Proof.
  induction fuel as [|fuel IH]; simpl; intros i k acc.
  - eexists; reflexivity.
  - destruct (Hr k) as [H0 H1].
    destruct (mixed_trial_body_total i (rng k) (rng (S k)) H0 H1) as [t ->].
    apply IH.
Qed.

Lemma generateMixedTrials_spec (rng : RandomSource) (n : nat) (ts : list Trial) :
  generateMixedTrials rng n = Some ts ->
  List.length ts = n /\
  forall j t, nth_error ts j = Some t ->
    dimension t = Some (dim_of j) /\ well_posed (dim_of j) t = true.
Proof.
  unfold generateMixedTrials. intro H.
  destruct (mixed_loop_spec rng n 0 0 [] ts H) as (ts' & -> & Hlen & Hall).
  split; [exact Hlen|]. exact Hall.
Qed.

Lemma js_index_testStimuli_none (r1 : Q) :
  ~ (0 <= r1 /\ r1 < 1) ->
  js_index testStimuli (Qfloor (r1 * inject_Z (Z.of_nat (List.length testStimuli)))) = None.
Proof.
  intro Hn. change (inject_Z (Z.of_nat (List.length testStimuli))) with 4. unfold js_index.
  destruct (Qlt_le_dec r1 0) as [Hlt|Hge].
  - assert (Hz : (Qfloor (r1 * 4) < 0)%Z).
    { assert (Hq : inject_Z (Qfloor (r1 * 4)) < inject_Z 0).
      { apply Qle_lt_trans with (r1 * 4); [apply Qfloor_le|].
        change (inject_Z 0) with (0 * 4). apply Qmult_lt_compat_r; [reflexivity|exact Hlt]. }
      rewrite <- Zlt_Qlt in Hq. exact Hq. }
    replace (Qfloor (r1 * 4) <? 0)%Z with true by (symmetry; apply Z.ltb_lt; exact Hz).
    reflexivity.
  - assert (H1 : 1 <= r1).
    { apply Qnot_lt_le. intro H. apply Hn. split; assumption. }
    assert (Hz : (4 <= Qfloor (r1 * 4))%Z).
    { change 4%Z with (Qfloor 4). apply Qfloor_resp_le.
      change 4 with (1 * 4) at 1. apply Qmult_le_compat_r; [exact H1|discriminate]. }
    replace (Qfloor (r1 * 4) <? 0)%Z with false by (symmetry; apply Z.ltb_ge; lia).
    apply nth_error_None. change (List.length testStimuli) with 4%nat. lia.
Qed.

Lemma mixed_trial_body_none (i : nat) (r1 r2 : Q) :
  mixed_trial_body i r1 r2 = None <-> ~ (0 <= r1 /\ r1 < 1).
Proof.
  split.
  - intros H [H0 H1]. destruct (mixed_trial_body_total i r1 r2 H0 H1) as [t Ht]. congruence.
  - intro Hn. unfold mixed_trial_body. cbv zeta. rewrite (js_index_testStimuli_none r1 Hn).
    reflexivity.
Qed.

Lemma mixed_loop_app (rng : RandomSource) (a : nat) :
  forall b i k acc, mixed_loop rng (a + b) i k acc =
    match mixed_loop rng a i k acc with
    | None => None
    | Some l => mixed_loop rng b (i + a) (k + 2 * a) l
    end.
Proof.
  induction a as [|a IH]; intros b i k acc.
  - simpl. rewrite Nat.add_0_r, Nat.add_0_r. reflexivity.
  - simpl. destruct (mixed_trial_body i (rng k) (rng (S k))); [|reflexivity].
    rewrite IH. destruct (mixed_loop rng a (S i) (S (S k)) _); [|reflexivity].
    f_equal; lia.
Qed.

Lemma mixed_loop_none_iff (rng : RandomSource) (fuel : nat) :
  forall i acc, mixed_loop rng fuel i (2 * i) acc = None <->
    exists j, (i <= j < i + fuel)%nat /\ ~ (0 <= rng (2 * j)%nat /\ rng (2 * j)%nat < 1).
Proof.
  induction fuel as [|fuel IH]; intros i acc; cbn [mixed_loop].
  - split; [discriminate|]. intros (j & Hj & _). lia.
  - destruct (mixed_trial_body i (rng (2 * i)%nat) (rng (S (2 * i)))) as [t|] eqn:Eb.
    + replace (S (S (2 * i))) with (2 * S i)%nat by lia. rewrite IH. split.
      * intros (j & Hj & Hn). exists j. split; [lia|exact Hn].
      * intros (j & Hj & Hn). exists j. split; [|exact Hn].
        destruct (Nat.eq_dec j i) as [->|]; [|lia].
        exfalso. apply (mixed_trial_body_none i _ (rng (S (2 * i)))) in Hn. congruence.
    + split; [intros _|reflexivity]. exists i. split; [lia|].
      exact (proj1 (mixed_trial_body_none i _ (rng (S (2 * i)))) Eb).
Qed.

(** ** Claims about trial generation *)

(** C1: every generated trial (its [dimension] is [color] on even indices
    and [shape] on odd ones) and every trial of COLOR_PRACTICE_TRIALS,
    COLOR_TEST_TRIALS (color) and SHAPE_TEST_TRIALS (shape) has exactly one
    of left/right matching the target on the active dimension, and its
    [correct] field is the index of that choice. *)
Theorem trials_well_posed (rng : RandomSource) (n : nat) (ts : list Trial)
  (Hgen : generateMixedTrials rng n = Some ts) :
  (forall t, In t ts -> well_posed_own t = true) /\
  forallb (well_posed "color") COLOR_PRACTICE_TRIALS = true /\
  forallb (well_posed "color") COLOR_TEST_TRIALS = true /\
  forallb (well_posed "shape") SHAPE_TEST_TRIALS = true.
Proof.
  split; [|split; [|split]]; try reflexivity.
  intros t Hin. destruct (In_nth_error ts t Hin) as [j Hj].
  destruct (proj2 (generateMixedTrials_spec rng n ts Hgen) j t Hj) as [Hd Hw].
  unfold well_posed_own. rewrite Hd. exact Hw.
Qed.

Lemma trials_well_posed_witness :
  generateMixedTrials rng_half 3 = Some mixed_half_3 /\
  forall t, In t mixed_half_3 -> well_posed_own t = true.
Proof.
  assert (E : generateMixedTrials rng_half 3 = Some mixed_half_3) by (vm_compute; reflexivity).
  split; [exact E|].
  exact (proj1 (trials_well_posed rng_half 3 mixed_half_3 E)).
Defined.

(** C4: for every count [n] and every random source honouring the contract
    of [Math.random()] (values in [0, 1)), generateMixedTrials(n) does not
    fail and returns exactly [n] trials; generateMixedTrials(0) is empty. *)
Theorem generateMixedTrials_length (rng : RandomSource)
  (Hr : forall k, 0 <= rng k /\ rng k < 1) (n : nat) :
  generateMixedTrials rng 0 = Some [] /\
  exists ts, generateMixedTrials rng n = Some ts /\ List.length ts = n.
Proof.
  split; [reflexivity|].
  destruct (mixed_loop_total rng Hr n 0 0 []) as [ts Hts].
  exists ts. split; [exact Hts|].
  exact (proj1 (generateMixedTrials_spec rng n ts Hts)).
Qed.

Lemma generateMixedTrials_length_witness :
  (forall k, 0 <= rng_half k /\ rng_half k < 1) /\
  exists ts, generateMixedTrials rng_half 4 = Some ts /\ List.length ts = 4%nat.
Proof.
  assert (Hr : forall k, 0 <= rng_half k /\ rng_half k < 1)
    by (intro k; split; unfold rng_half, Qle, Qlt; simpl; lia).
  split; [exact Hr|].
  exact (proj2 (generateMixedTrials_length rng_half Hr 4)).
Defined.

(** C5: for every [n] and every [i < n], trial [i] of generateMixedTrials(n)
    has dimension [color] when [i] is even and [shape] when [i] is odd,
    whatever the random source returns. *)
Theorem generateMixedTrials_dimension (rng : RandomSource) (n : nat) (ts : list Trial)
  (Hgen : generateMixedTrials rng n = Some ts) :
  forall i, (i < n)%nat ->
  exists t, nth_error ts i = Some t /\
    dimension t = Some (if Nat.even i then "color" else "shape").
Proof.
  intros i Hi. destruct (generateMixedTrials_spec rng n ts Hgen) as [Hlen Hall].
  destruct (nth_error ts i) as [t|] eqn:E.
  - exists t. split; [reflexivity|]. exact (proj1 (Hall i t E)).
  - apply nth_error_None in E. lia.
Qed.

Lemma generateMixedTrials_dimension_witness :
  generateMixedTrials rng_half 3 = Some mixed_half_3 /\
  exists t, nth_error mixed_half_3 1 = Some t /\ dimension t = Some "shape".
Proof.
  assert (E : generateMixedTrials rng_half 3 = Some mixed_half_3) by (vm_compute; reflexivity).
  split; [exact E|].
  exact (generateMixedTrials_dimension rng_half 3 mixed_half_3 E 1 ltac:(lia)).
Defined.

(** C7: with [Math.random()] returning 0.5 on every draw,
    generateMixedTrials(2) gives a color trial then a shape trial, and since
    [0.5 > 0.5] is false neither swaps the base pair: left is the blue ball
    and right the orange truck. *)
Example generateMixedTrials_half_source :
  Qle_bool (rng_half 1%nat) (1 # 2) = true /\
  match generateMixedTrials rng_half 2 with
  | Some [t0; t1] =>
      dimension t0 = Some "color" /\ dimension t1 = Some "shape" /\
      left t0 = blueBall /\ right t0 = orangeTruck /\
      left t1 = blueBall /\ right t1 = orangeTruck
  | _ => False
  end.
Proof.
  split; [reflexivity|].
  vm_compute. repeat split.
Qed.

(** ** Response handling *)

Lemma remove_nth_filter {A} (f : A -> bool) (l : list A) (j : nat) (x : A) :
  nth_error l j = Some x ->
  List.length (filter f l) = (List.length (filter f (remove_nth j l)) + (if f x then 1 else 0))%nat.
Proof.
  revert j; induction l as [|y l IH]; intros [|j] H; simpl in *; try discriminate.
  - injection H; intros ->. destruct (f x); simpl; lia.
  - destruct (f y); simpl; rewrite (IH j H); lia.
Qed.

Lemma remove_nth_In {A} (l : list A) (j : nat) (x : A) : In x (remove_nth j l) -> In x l.
Proof.
  revert j; induction l as [|y l IH]; intros [|j] H; simpl in *; auto.
  destruct H as [H|H]; [left; exact H | right; exact (IH j H)].
Qed.

Section OnClick.
Variables (env : Env) (trial : Trial) (withFeedback : bool) (startTime : Q).

Lemma playAudio_fields (t : string) (s : TState) :
  responded (playAudio env t s) = responded s /\ timers (playAudio env t s) = timers s /\
  finished (playAudio env t s) = finished s /\ threw (playAudio env t s) = threw s.
Proof. unfold playAudio. destruct (_ && _); repeat split. Qed.

Lemma highlight_fields (s : TState) :
  responded (fst (highlight_correct env trial s)) = responded s /\
  timers (fst (highlight_correct env trial s)) = timers s /\
  finished (fst (highlight_correct env trial s)) = finished s.
Proof. unfold highlight_correct. destruct (js_index _ _); repeat split. Qed.

(** What an accepted click does to the latch, the timers and the results. *)
Lemma on_click_fields (ci : nat) (now : Q) (s : TState) :
  responded s = false ->
  let ok := Z.eqb (Z.of_nat ci) (correct trial) in
  let s' := on_click env trial withFeedback startTime ci now s in
  responded s' = true /\
  ((withFeedback = false /\ finished s' = (finished s ++ [mkFinish ci ok (now - startTime)])%list
      /\ timers s' = timers s) \/
   (withFeedback = true /\ finished s' = finished s /\
      timers s' = (timers s ++ [mkTimer (now + (if ok then 1500 else 2500)) (CbFinish ci ok)])%list) \/
   (withFeedback = true /\ finished s' = finished s /\ timers s' = timers s)).
Proof.
  intros Hr ok s'. unfold s', on_click. rewrite Hr. fold ok.
  destruct withFeedback.
  - set (p := if feedback_div env then _ else _).
    assert (Hp : timers (fst p) = timers s /\ finished (fst p) = finished s /\
                 responded (fst p) = true).
    { unfold p. destruct (feedback_div env), ok; simpl.
      - destruct (playAudio_fields msg_right
          (set_feedback msg_right "dccs-feedback correct" (set_responded s))) as (Hr1 & Ht & Hf & _).
        rewrite Hr1, Ht, Hf. repeat split.
      - destruct (highlight_fields (playAudio env msg_same_color_audio
          (set_feedback msg_same_color "dccs-feedback incorrect" (set_responded s))))
          as (Hr1 & Ht & Hf).
        destruct (playAudio_fields msg_same_color_audio
          (set_feedback msg_same_color "dccs-feedback incorrect" (set_responded s))) as (Hr' & Ht' & Hf' & _).
        rewrite Hr1, Ht, Hf, Hr', Ht', Hf'. repeat split.
      - repeat split.
      - repeat split. }
    destruct p as [s1 exc]. simpl in Hp. destruct Hp as (Ht & Hf & Hr1).
    destruct exc.
    + split; [exact Hr1|]. right; right. repeat split; assumption.
    + simpl. rewrite Ht, Hf. split; [exact Hr1|]. right; left. repeat split.
  - simpl. split; [reflexivity|]. left. repeat split.
Qed.

End OnClick.

Section Latch.
Variables (env : Env) (trial : Trial) (dim : string) (withFeedback : bool) (startTime : Q).

Lemma latch_inv_setup : latch_inv (setupTrial env dim withFeedback startTime).
Proof.
  unfold setupTrial, latch_inv, pending.
  destruct (playAudio_fields env (toUpperCase dim) init_state) as (_ & Ht & Hf & _).
  destruct withFeedback; simpl.
  - rewrite Ht, Hf. simpl. lia.
  - unfold add_timer, set_timers; simpl. rewrite Ht, Hf. simpl. lia.
Qed.

Lemma latch_inv_step (s : TState) (e : Event) : latch_inv s -> latch_inv (step env trial withFeedback startTime s e).
Proof.
  unfold latch_inv, pending. intros [Hle H0].
  destruct e as [ci now | j now cur]; simpl.
  - destruct (Nat.ltb ci (ncards env)); [|simpl; split; assumption].
    destruct (responded s) eqn:Er.
    + unfold on_click. rewrite Er. split; [exact Hle | intros; congruence].
    + specialize (H0 eq_refl).
      pose proof (on_click_fields env trial withFeedback startTime ci now s Er) as Hc; cbv zeta in Hc.
      destruct Hc as (Hr' & [(_ & Hf' & Ht')|[(_ & Hf' & Ht')|(_ & Hf' & Ht')]]);
        rewrite Hf', Ht'.
      * rewrite length_app. simpl. split; [lia | intro Hx; congruence].
      * rewrite filter_app, length_app. simpl. split; [lia | intro Hx; congruence].
      * split; [lia | intro Hx; congruence].
  - destruct (nth_error (timers s) j) as [tm|] eqn:Ej; [|simpl; split; assumption].
    destruct (Qle_bool (due tm) now); [|simpl; split; assumption].
    pose proof (remove_nth_filter is_finish (timers s) j tm Ej) as Hc.
    destruct tm as [d c]. destruct c as [ci ok|]; simpl in *.
    + unfold add_finish; simpl. rewrite length_app. simpl.
      split; [lia | intro Hr; specialize (H0 Hr); lia].
    + destruct (negb (responded s) && cur).
      * destruct (playAudio_fields env msg_prompt (set_timers (remove_nth j (timers s)) s))
          as (Hr & Ht & Hf & _).
        rewrite Hr, Ht, Hf. simpl. split; [lia | intro Hr'; specialize (H0 Hr'); lia].
      * simpl. split; [lia | intro Hr'; specialize (H0 Hr'); lia].
Qed.

Lemma latch_inv_run (evs : list Event) (s : TState) : latch_inv s -> latch_inv (run env trial withFeedback startTime evs s).
Proof.
  unfold run. revert s; induction evs as [|e evs IH]; simpl; intros s H; [exact H|].
  apply IH. exact (latch_inv_step s e H).
Qed.

End Latch.

Section FirstClick.
Variables (env : Env) (trial : Trial) (dim : string) (withFeedback : bool) (startTime : Q).



Lemma Forall_remove_nth {A} (P : A -> Prop) (l : list A) (j : nat) :
  Forall P l -> Forall P (remove_nth j l).
Proof.
  rewrite !Forall_forall. intros H x Hx. exact (H x (remove_nth_In l j x Hx)).
Qed.

Lemma click_inv_setup : click_inv None (setupTrial env dim withFeedback startTime).
Proof.
  unfold setupTrial.
  destruct (playAudio_fields env (toUpperCase dim) init_state) as (Hr & Ht & Hf & _).
  destruct withFeedback; simpl.
  - rewrite Hr, Ht, Hf. repeat split. constructor.
  - rewrite Hr, Ht, Hf. repeat split. simpl. repeat constructor.
Qed.

Lemma click_inv_step (c : option nat) (s : TState) (e : Event) :
  click_inv c s -> click_inv (accept env c e) (step env trial withFeedback startTime s e).
Proof.
  destruct e as [ci now | j now cur]; simpl.
  - destruct (Nat.ltb ci (ncards env)) eqn:Hlt.
    + destruct c as [c0|]; simpl.
      * intros (Hr & Hf & Ht). unfold on_click. rewrite Hr. repeat split; assumption.
      * rewrite Hlt. intros (Hr & Hf & Ht).
        pose proof (on_click_fields env trial withFeedback startTime ci now s Hr) as Hc; cbv zeta in Hc.
        destruct Hc as (Hr' & [(_ & Hf' & Ht')|[(_ & Hf' & Ht')|(_ & Hf' & Ht')]]);
          (split; [exact Hr'|]); rewrite Hf', Ht', Hf; split.
        -- repeat constructor.
        -- eapply Forall_impl; [|exact Ht]. intros [d [k b|]] Hx; simpl in *; [discriminate Hx | exact I].
        -- constructor.
        -- apply Forall_app; split.
           ++ eapply Forall_impl; [|exact Ht]. intros [d [k b|]] Hx; simpl in *; [discriminate Hx | exact I].
           ++ repeat constructor.
        -- constructor.
        -- eapply Forall_impl; [|exact Ht]. intros [d [k b|]] Hx; simpl in *; [discriminate Hx | exact I].
    + destruct c; simpl; [intro H; exact H | rewrite Hlt; intro H; exact H].
  - destruct (nth_error (timers s) j) as [tm|] eqn:Ej; [|intro H; destruct c; exact H].
    destruct (Qle_bool (due tm) now); [|intro H; destruct c; exact H].
    pose proof (nth_error_In _ _ Ej) as Hin.
    destruct c as [c0|]; simpl; intros (Hr & Hf & Ht);
      pose proof (Forall_remove_nth _ _ j Ht) as Ht';
      rewrite Forall_forall in Ht; specialize (Ht tm Hin);
      destruct tm as [d [k b|]]; simpl in *.
    + unfold add_finish; simpl. split; [exact Hr|]. split; [|exact Ht'].
      apply Forall_app; split; [exact Hf|]. constructor; [simpl; exact Ht|constructor].
    + destruct (negb (responded s) && cur).
      * destruct (playAudio_fields env msg_prompt (set_timers (remove_nth j (timers s)) s))
          as (Hr1 & Ht1 & Hf1 & _).
        rewrite Hr1, Ht1, Hf1. simpl. repeat split; assumption.
      * simpl. repeat split; assumption.
    + discriminate.
    + destruct (negb (responded s) && cur).
      * destruct (playAudio_fields env msg_prompt (set_timers (remove_nth j (timers s)) s))
          as (Hr1 & Ht1 & Hf1 & _).
        rewrite Hr1, Ht1, Hf1. simpl. repeat split; assumption.
      * simpl. repeat split; assumption.
Qed.

Lemma click_inv_run (evs : list Event) :
  forall c s, click_inv c s ->
  click_inv (fold_left (accept env) evs c) (run env trial withFeedback startTime evs s).
Proof.
  unfold run. induction evs as [|e evs IH]; simpl; intros c s H; [exact H|].
  apply IH. apply click_inv_step. exact H.
Qed.

End FirstClick.

(** On the no-feedback path an accepted click reports
    [{response: cardIndex, correct: cardIndex === trial.correct,
      rt: now - startTime}] at once. *)
Lemma no_feedback_report (env : Env) (trial : Trial) (startTime : Q) (s : TState)
  (ci : nat) (now : Q) :
  responded s = false -> (ci < ncards env)%nat ->
  finished (step env trial false startTime s (Click ci now)) =
  (finished s ++ [mkFinish ci (Z.eqb (Z.of_nat ci) (correct trial)) (now - startTime)])%list.
Proof.
  intros Hr Hci. simpl. replace (Nat.ltb ci (ncards env)) with true by (symmetry; apply Nat.ltb_lt; exact Hci).
  unfold on_click. rewrite Hr. reflexivity.
Qed.

(** C3: for every trial set up by setupTrial and every sequence of clicks
    and timer firings, [jsPsych.finishTrial] is called at most once, the
    result it reports is the one of the first click that reached a card,
    and once a response is accepted every further click changes nothing. *)
Theorem response_at_most_once (env : Env) (trial : Trial) (dim : string)
  (withFeedback : bool) (startTime : Q) (evs : list Event) :
  let R := run env trial withFeedback startTime evs (setupTrial env dim withFeedback startTime) in
  (List.length (finished R) <= 1)%nat /\
  (forall d, In d (finished R) -> first_accepted_click env evs = Some (response d)) /\
  (forall s ci now, responded s = true -> step env trial withFeedback startTime s (Click ci now) = s).
Proof.
  intro R. split; [|split].
  - destruct (latch_inv_run env trial withFeedback startTime evs _
      (latch_inv_setup env dim withFeedback startTime)) as [H _].
    unfold pending in H. fold R in H. lia.
  - intros d Hd. pose proof (click_inv_run env trial withFeedback startTime evs None _
      (click_inv_setup env dim withFeedback startTime)) as H.
    fold R in H. unfold first_accepted_click.
    destruct (fold_left (accept env) evs None) as [c|]; simpl in H.
    + destruct H as (_ & Hf & _). rewrite Forall_forall in Hf. rewrite (Hf d Hd). reflexivity.
    + destruct H as (_ & Hf & _). rewrite Hf in Hd. destruct Hd.
  - intros s ci now Hr. simpl. destruct (Nat.ltb ci (ncards env)); [|reflexivity].
    unfold on_click. rewrite Hr. reflexivity.
Qed.

Lemma response_at_most_once_witness :
  let s1 := run env_demo trial_demo false 0 [Click 1 300] (setupTrial env_demo "color" false 0) in
  responded s1 = true /\
  step env_demo trial_demo false 0 s1 (Click 0 400) = s1 /\
  (List.length (finished (run env_demo trial_demo false 0 [Click 1 300; Click 0 400; Click 1 500]
     (setupTrial env_demo "color" false 0))) <= 1)%nat.
Proof.
  intro s1.
  assert (Hr : responded s1 = true) by (vm_compute; reflexivity).
  split; [exact Hr|]. split.
  - exact (proj2 (proj2 (response_at_most_once env_demo trial_demo "color" false 0 [])) s1 0%nat 400 Hr).
  - exact (proj1 (response_at_most_once env_demo trial_demo "color" false 0
      [Click 1 300; Click 0 400; Click 1 500])).
Defined.

(** C2 (feedback path): a practice-style trial set up at time 0 whose
    correct card is clicked at time 100 reports [rt = 1600], the time at
    which the 1500 ms feedback timeout calls [finishTrial], not the 100 ms
    that elapsed between setup and click. *)
Theorem feedback_rt_includes_delay :
  let s := run env_demo trial_demo true 0 [Click 0 100; Fire 0 1600 true]
             (setupTrial env_demo "color" true 0) in
  finished s = [mkFinish 0 true 1600] /\ Qeq_bool 1600 (100 - 0) = false.
Proof. vm_compute. split; reflexivity. Qed.

(** C8, the claim refuted: the feedback-path timeout acts although a
    response was accepted and [getCurrentTrial()] returns null. *)
Lemma feedback_timer_unguarded :
  let s1 := run env_demo trial_demo true 0 [Click 0 100] (setupTrial env_demo "color" true 0) in
  responded s1 = true /\
  observable (step env_demo trial_demo true 0 s1 (Fire 0 1600 false)) <> observable s1.
Proof.
  split; [vm_compute; reflexivity|].
  vm_compute. intro H. injection H. intros. discriminate.
Qed.

(** Only a click that is accepted (the latch goes from unset to set)
    schedules a completion timer. *)
Lemma finish_timer_added_on_accept (env : Env) (trial : Trial) (wf : bool) (startTime : Q)
  (s : TState) (e : Event) :
  (List.length (filter is_finish (timers s)) <
   List.length (filter is_finish (timers (step env trial wf startTime s e))))%nat ->
  responded s = false /\ responded (step env trial wf startTime s e) = true.
Proof.
  intro H. destruct e as [ci now | j now cur]; simpl in H |- *.
  - destruct (Nat.ltb ci (ncards env)); [|lia].
    destruct (responded s) eqn:Er.
    + unfold on_click in H. rewrite Er in H. lia.
    + split; [reflexivity|]. exact (proj1 (on_click_fields env trial wf startTime ci now s Er)).
  - exfalso. destruct (nth_error (timers s) j) as [tm|] eqn:Ej; [|lia].
    destruct (Qle_bool (due tm) now); [|lia].
    pose proof (remove_nth_filter is_finish (timers s) j tm Ej) as Hc.
    destruct tm as [d c]. destruct c as [ci ok|]; simpl in H, Hc.
    + lia.
    + destruct (negb (responded s) && cur).
      * destruct (playAudio_fields env msg_prompt (set_timers (remove_nth j (timers s)) s))
          as (_ & Ht & _ & _).
        rewrite Ht in H. simpl in H. lia.
      * simpl in H. lia.
Qed.

(** C8, as amended: the only reminder is the 5 s prompt, scheduled on the
    no-feedback path only.  Whenever it fires after a response was accepted
    or while [getCurrentTrial()] is null it changes nothing; otherwise, once
    due, it plays "Choose one of the pictures.".  The feedback-path
    completion timer checks no state: once due it reports its result
    whatever the latch and the accessor say; it is only scheduled by the
    click whose response is accepted, so in every run of a trial a pending
    completion timer means that a response has been accepted. *)
Theorem reminder_guarded_completion_unguarded (env : Env) (trial : Trial) (dim : string)
  (withFeedback : bool) (startTime : Q) :
  timers (setupTrial env dim withFeedback startTime) =
    (if withFeedback then [] else [mkTimer (startTime + 5000) CbPrompt]) /\
  (forall s j d now cur, nth_error (timers s) j = Some (mkTimer d CbPrompt) ->
     (responded s = true \/ cur = false) ->
     observable (step env trial withFeedback startTime s (Fire j now cur)) = observable s) /\
  (forall s j d now, nth_error (timers s) j = Some (mkTimer d CbPrompt) ->
     responded s = false -> Qle_bool d now = true ->
     spoken (step env trial withFeedback startTime s (Fire j now true)) =
     (spoken s ++ (if audio_enabled env && speech_available env then [msg_prompt] else []))%list) /\
  (forall s j d ci ok now cur, nth_error (timers s) j = Some (mkTimer d (CbFinish ci ok)) ->
     Qle_bool d now = true ->
     finished (step env trial withFeedback startTime s (Fire j now cur)) =
     (finished s ++ [mkFinish ci ok (now - startTime)])%list) /\
  (forall evs tm,
     let R := run env trial withFeedback startTime evs (setupTrial env dim withFeedback startTime) in
     In tm (timers R) -> is_finish tm = true -> responded R = true) /\
  (forall s e,
     (List.length (filter is_finish (timers s)) <
      List.length (filter is_finish (timers (step env trial withFeedback startTime s e))))%nat ->
     responded s = false /\ responded (step env trial withFeedback startTime s e) = true).
Proof.
  split; [|split; [|split; [|split; [|split]]]].
  - unfold setupTrial.
    destruct (playAudio_fields env (toUpperCase dim) init_state) as (_ & Ht & _ & _).
    destruct withFeedback; simpl; rewrite Ht; reflexivity.
  - intros s j d now cur Hj Hg. simpl. rewrite Hj. cbn [due cb].
    destruct (Qle_bool d now); [|reflexivity]. simpl.
    replace (negb (responded s) && cur) with false
      by (destruct Hg as [-> | ->]; [reflexivity | symmetry; apply andb_false_r]).
    reflexivity.
  - intros s j d now Hj Hr Hd. simpl. rewrite Hj. cbn [due cb]. rewrite Hd. simpl. rewrite Hr. simpl.
    unfold playAudio. destruct (audio_enabled env && speech_available env); simpl.
    + reflexivity.
    + rewrite app_nil_r. reflexivity.
  - intros s j d ci ok now cur Hj Hd. simpl. rewrite Hj. cbn [due cb]. rewrite Hd. reflexivity.
  - intros evs tm R Hin Hf.
    destruct (latch_inv_run env trial withFeedback startTime evs _
      (latch_inv_setup env dim withFeedback startTime)) as [_ H0].
    fold R in H0. destruct (responded R); [reflexivity|].
    specialize (H0 eq_refl). unfold pending in H0.
    assert (Hin' : In tm (filter is_finish (timers R))) by (apply filter_In; split; assumption).
    destruct (filter is_finish (timers R)); [destruct Hin' | simpl in H0; lia].
  - intros s e H. exact (finish_timer_added_on_accept env trial withFeedback startTime s e H).
Qed.

Lemma reminder_guarded_completion_unguarded_witness :
  let s0 := setupTrial env_demo "shape" false 0 in
  nth_error (timers s0) 0 = Some (mkTimer 5000 CbPrompt) /\
  observable (step env_demo trial_demo false 0 s0 (Fire 0 5000 false)) = observable s0.
Proof.
  intro s0.
  assert (Hj : nth_error (timers s0) 0 = Some (mkTimer 5000 CbPrompt)) by (vm_compute; reflexivity).
  split; [exact Hj|].
  exact (proj1 (proj2 (reminder_guarded_completion_unguarded env_demo trial_demo "shape" false 0))
           s0 0%nat 5000 5000 false Hj (or_intror eq_refl)).
Defined.

(** C10: on a feedback-enabled trial an incorrect first click shows
    "This is the same color." and speaks the color-phrased correction, a
    correct one shows "That's right!"; the click handler's outcome does not
    depend on the trial's [dimension], nor on the dimension setupTrial was
    called with (the handler never reads it). *)
Theorem feedback_text_color_only (env : Env) (trial : Trial) (startTime : Q)
  (s : TState) (ci : nat) (now : Q)
  (Hdiv : feedback_div env = true) (Hr : responded s = false) (Hci : (ci < ncards env)%nat) :
  let s' := step env trial true startTime s (Click ci now) in
  (Z.eqb (Z.of_nat ci) (correct trial) = false ->
     feedback s' = Some (msg_same_color, "dccs-feedback incorrect") /\
     spoken s' = (spoken s ++ (if audio_enabled env && speech_available env
                               then [msg_same_color_audio] else []))%list) /\
  (Z.eqb (Z.of_nat ci) (correct trial) = true ->
     feedback s' = Some (msg_right, "dccs-feedback correct")) /\
  (forall d, step env (mkTrial (target trial) (left trial) (right trial) (correct trial) d)
               true startTime s (Click ci now) = s').
Proof.
  intro s'. unfold s'. simpl.
  replace (Nat.ltb ci (ncards env)) with true by (symmetry; apply Nat.ltb_lt; exact Hci).
  unfold on_click. rewrite Hr, Hdiv. simpl.
  split; [|split].
  - intro Hc. rewrite Hc. unfold highlight_correct, playAudio.
    destruct (audio_enabled env && speech_available env), (js_index _ _); simpl;
      (split; [reflexivity|]); rewrite ?app_nil_r; reflexivity.
  - intro Hc. rewrite Hc. unfold playAudio.
    destruct (audio_enabled env && speech_available env); reflexivity.
  - intro d. reflexivity.
Qed.

Lemma feedback_text_color_only_witness :
  let s0 := setupTrial env_demo "shape" true 0 in
  feedback (step env_demo trial_demo true 0 s0 (Click 1 700)) =
    Some (msg_same_color, "dccs-feedback incorrect").
Proof.
  intro s0.
  exact (proj1 (proj1 (feedback_text_color_only env_demo trial_demo 0 s0 1 700
    eq_refl ltac:(vm_compute; reflexivity) (le_n 2)) eq_refl)).
Defined.

(** ** Double rounding *)

Lemma pow2_pos (z : Z) : 0 < pow2 z.
Proof. apply Qpower_0_lt. reflexivity. Qed.

Lemma pow2_plus (a b : Z) : pow2 (a + b) == pow2 a * pow2 b.
Proof. apply Qpower_plus. discriminate. Qed.

Lemma pow2_nonneg_Z (z : Z) : (0 <= z)%Z -> pow2 z == inject_Z (2 ^ z).
Proof. intro H. unfold pow2. rewrite (Zpower_Qpower 2 z H). reflexivity. Qed.

Lemma flog2_le (x : Q) : 0 < x -> pow2 (flog2 x) <= x.
Proof.
  intro Hx. unfold flog2.
  destruct (Qle_bool (pow2 _) x) eqn:E; [apply Qle_bool_iff; exact E|].
  destruct x as [p q]. unfold Qnum, Qden.
  assert (Hp : (0 < p)%Z) by (unfold Qlt in Hx; simpl in Hx; lia).
  destruct (Z.log2_spec p Hp) as [Hp1 _].
  destruct (Z.log2_spec (Zpos q) eq_refl) as [_ Hq2].
  pose proof (Z.log2_nonneg p) as Hl1. pose proof (Z.log2_nonneg (Zpos q)) as Hl2.
  set (lp := Z.log2 p) in *. set (lq := Z.log2 (Zpos q)) in *.
  replace (lp - lq - 1)%Z with (lp + - (Z.succ lq))%Z by lia.
  rewrite pow2_plus. unfold pow2 at 2. rewrite Qpower_opp. fold (pow2 (Z.succ lq)).
  rewrite (pow2_nonneg_Z lp Hl1), (pow2_nonneg_Z (Z.succ lq) ltac:(lia)).
  rewrite Qmake_Qdiv.
  assert (HA : inject_Z (2 ^ lp) <= inject_Z p) by (rewrite <- Zle_Qle; exact Hp1).
  assert (HB : inject_Z (Zpos q) < inject_Z (2 ^ Z.succ lq)) by (rewrite <- Zlt_Qlt; exact Hq2).
  assert (HQ : 0 < inject_Z (Zpos q)) by (change 0 with (inject_Z 0); rewrite <- Zlt_Qlt; lia).
  apply Qle_trans with (inject_Z p * / inject_Z (2 ^ Z.succ lq)).
  - apply Qmult_le_compat_r; [exact HA|]. apply Qinv_le_0_compat. lra.
  - unfold Qdiv. rewrite (Qmult_comm (inject_Z p)), (Qmult_comm (inject_Z p)).
    apply Qmult_le_compat_r; [|change 0 with (inject_Z 0); rewrite <- Zle_Qle; lia].
    apply Qlt_le_weak. apply (proj1 (Qinv_lt_contravar (inject_Z (Zpos q)) (inject_Z (2 ^ Z.succ lq)) HQ ltac:(lra))). exact HB.
Qed.

Lemma round_even_err (s : Q) : Qabs (inject_Z (round_even s) - s) <= 1 # 2.
Proof.
  unfold round_even.
  pose proof (Qfloor_le s) as H1. pose proof (Qlt_floor s) as H2.
  rewrite inject_Z_plus in H2. change (inject_Z 1) with 1 in H2.
  set (f := Qfloor s) in *.
  apply Qabs_Qle_condition.
  destruct (Qeq_bool (s - inject_Z f) (1 # 2)) eqn:E1.
  - apply Qeq_bool_eq in E1. destruct (Z.even f); [|rewrite inject_Z_plus; change (inject_Z 1) with 1]; split; lra.
  - destruct (Qle_bool (s - inject_Z f) (1 # 2)) eqn:E2.
    + apply Qle_bool_iff in E2. split; lra.
    + assert (E3 : ~ (s - inject_Z f <= 1 # 2)) by (intro X; apply Qle_bool_iff in X; congruence).
      apply Qnot_le_lt in E3. rewrite inject_Z_plus. change (inject_Z 1) with 1. split; lra.
Qed.

Lemma round_even_nonneg (s : Q) : 0 <= s -> (0 <= round_even s)%Z.
Proof.
  intro H. assert (Hf : (0 <= Qfloor s)%Z).
  { change 0%Z with (Qfloor 0). apply Qfloor_resp_le. exact H. }
  unfold round_even. destruct (Qeq_bool _ _); [destruct (Z.even _)|destruct (Qle_bool _ _)]; lia.
Qed.

(** A rounded positive real is off by at most half a unit of its last
    place: [x * 2^-53] for a normal result, [2^-1075] for a subnormal one. *)
Lemma round64_val_err (x : Q) : 0 < x ->
  Qabs (round64_val x - x) <= x * pow2 (-53) + pow2 (-1075).
Proof.
  intro Hx. unfold round64_val.
  set (e := Z.max (flog2 x - 52) (-1074)).
  assert (Hw := pow2_pos e). set (w := pow2 e) in *.
  set (m := inject_Z (round_even (x / w))).
  assert (Hm : Qabs (m - x / w) <= 1 # 2) by apply round_even_err.
  assert (Hd : m * w - x == (m - x / w) * w) by (field; intro X; rewrite X in Hw; discriminate Hw).
  rewrite Hd, Qabs_Qmult, (Qabs_pos w) by lra.
  assert (Hhalf : Qabs (m - x / w) * w <= (1 # 2) * w) by (apply Qmult_le_compat_r; lra).
  assert (H53 : 0 <= x * pow2 (-53)) by (apply Qmult_le_0_compat; [lra | apply Qlt_le_weak, pow2_pos]).
  assert (H1075 := pow2_pos (-1075)).
  destruct (Z.max_spec (flog2 x - 52) (-1074)) as [[_ He]|[_ He]]; fold e in He.
  - assert (Hw' : w == 2 * pow2 (-1075)).
    { unfold w. rewrite He. vm_compute. reflexivity. }
    lra.
  - assert (Hw' : w == pow2 (flog2 x) * (2 * pow2 (-53))).
    { unfold w. rewrite He. replace (flog2 x - 52)%Z with (flog2 x + -52)%Z by lia.
      rewrite pow2_plus. apply Qmult_comp; [reflexivity|]. vm_compute. reflexivity. }
    assert (Hl : pow2 (flog2 x) * (2 * pow2 (-53)) <= x * (2 * pow2 (-53))).
    { apply Qmult_le_compat_r; [apply flog2_le; exact Hx|]. pose proof (pow2_pos (-53)). lra. }
    lra.
Qed.

(** A double rounding of a real in [0, 128] is finite, non-negative and
    within [x * 2^-53 + 2^-1075] of it. *)
Lemma round64_small (x : Q) : 0 <= x <= 128 ->
  exists v, round64 x = Num v /\ 0 <= v /\ Qabs (v - x) <= x * pow2 (-53) + pow2 (-1075).
Proof.
  intros [H0 H1]. unfold round64.
  assert (H53 : 0 <= x * pow2 (-53)) by (apply Qmult_le_0_compat; [lra | apply Qlt_le_weak, pow2_pos]).
  assert (H1075 := pow2_pos (-1075)).
  destruct (Qeq_bool x 0) eqn:E0.
  { exists 0. apply Qeq_bool_eq in E0. split; [reflexivity|]. split; [lra|].
    apply Qabs_Qle_condition. split; lra. }
  assert (Hx : 0 < x).
  { apply Qle_lteq in H0. destruct H0 as [H0|H0]; [exact H0|].
    exfalso. assert (X : Qeq_bool x 0 = true) by (apply Qeq_bool_iff; symmetry; exact H0). congruence. }
  replace (Qle_bool 0 x) with true by (symmetry; apply Qle_bool_iff; exact H0).
  unfold round64_pos.
  pose proof (round64_val_err x Hx) as He.
  assert (Hv0 : 0 <= round64_val x).
  { unfold round64_val. apply Qmult_le_0_compat; [|apply Qlt_le_weak, pow2_pos].
    change 0 with (inject_Z 0). rewrite <- Zle_Qle. apply round_even_nonneg.
    apply Qle_shift_div_l; [apply pow2_pos|]. lra. }
  apply Qabs_Qle_condition in He.
  assert (Hs : x * pow2 (-53) <= 128 * pow2 (-53)) by (apply Qmult_le_compat_r; [lra | apply Qlt_le_weak, pow2_pos]).
  assert (Hc1 : 128 * pow2 (-53) + pow2 (-1075) <= 1) by (vm_compute; intro X; discriminate X).
  assert (Hc2 : 256 <= pow2 1024) by (vm_compute; intro X; discriminate X).
  replace (Qle_bool (pow2 1024) (round64_val x)) with false.
  - exists (round64_val x). split; [reflexivity|]. split; [exact Hv0|].
    apply Qabs_Qle_condition. exact He.
  - symmetry. apply not_true_iff_false. intro X. apply Qle_bool_iff in X. lra.
Qed.

(** [count(correct) / count(all) * 100] in doubles, for [0 <= c <= n],
    [0 < n]: a finite non-negative value within [2^-40] of the exact
    percentage. *)
Lemma accuracy_double (c n : Z) : (0 <= c <= n)%Z -> (0 < n)%Z ->
  exists v, js_mul_pos (js_div (inject_Z c) (inject_Z n)) 100 = Num v /\ 0 <= v /\
    Qabs (v - inject_Z c / inject_Z n * 100) <= 1 # 1099511627776.
Proof.
  intros Hc Hn. unfold js_div.
  replace (Qeq_bool (inject_Z n) 0) with false.
  2:{ symmetry. apply not_true_iff_false. intro X. apply Qeq_bool_eq in X. unfold Qeq in X. simpl in X. lia. }
  assert (HN : 0 < inject_Z n) by (change 0 with (inject_Z 0); rewrite <- Zlt_Qlt; lia).
  assert (HC0 : 0 <= inject_Z c) by (change 0 with (inject_Z 0); rewrite <- Zle_Qle; lia).
  assert (HCN : inject_Z c <= inject_Z n) by (rewrite <- Zle_Qle; lia).
  set (x := inject_Z c / inject_Z n).
  assert (Hx0 : 0 <= x) by (apply Qle_shift_div_l; lra).
  assert (Hx1 : x <= 1) by (apply Qle_shift_div_r; lra).
  destruct (round64_small x ltac:(lra)) as (v1 & E1 & Hv1 & Hr1). rewrite E1. unfold js_mul_pos.
  apply Qabs_Qle_condition in Hr1.
  assert (H53 := pow2_pos (-53)). assert (H1075 := pow2_pos (-1075)).
  assert (Hs1 : x * pow2 (-53) <= 1 * pow2 (-53)) by (apply Qmult_le_compat_r; lra).
  assert (Hc1 : pow2 (-53) + pow2 (-1075) <= 1 # 4) by (vm_compute; intro X; discriminate X).
  destruct (round64_small (v1 * 100) ltac:(lra)) as (v2 & E2 & Hv2 & Hr2). rewrite E2.
  exists v2. split; [reflexivity|]. split; [exact Hv2|].
  apply Qabs_Qle_condition in Hr2.
  assert (Hs2 : v1 * 100 * pow2 (-53) <= 200 * pow2 (-53)) by (apply Qmult_le_compat_r; lra).
  assert (Hc2 : 300 * pow2 (-53) + 101 * pow2 (-1075) <= 1 # 1099511627776)
    by (vm_compute; intro X; discriminate X).
  apply Qabs_Qle_condition. split; lra.
Qed.

(** ** The results summary *)

Lemma filter_filter' {A} (f g : A -> bool) (l : list A) :
  filter f (filter g l) = filter (fun x => g x && f x) l.
Proof.
  induction l as [|x l IH]; simpl; [reflexivity|].
  destruct (g x); simpl; [destruct (f x); simpl|]; rewrite IH; reflexivity.
Qed.

Lemma phase_cell_accuracy (all : list Row) (p : string) :
  phase_cell all p =
  toFixed0 (js_mul_pos (js_div (inject_Z (Z.of_nat (c_phase all p)))
                               (inject_Z (Z.of_nat (n_phase all p)))) 100) ++ "%".
Proof.
  unfold phase_cell, accuracy, count, filter_correct, filter_phase, filter_task,
    c_phase, n_phase, in_phase.
  rewrite (filter_filter' (field_is String.eqb row_phase p) (field_is String.eqb row_task "dccs")).
  reflexivity.
Qed.

Lemma nonneg_ratio_percent (a b : Z) :
  (0 <= a)%Z -> (0 <= b)%Z -> 0 <= inject_Z a / inject_Z b * 100.
Proof.
  intros Ha Hb. apply Qmult_le_0_compat; [|discriminate].
  apply Qmult_le_0_compat.
  - change 0 with (inject_Z 0). rewrite <- Zle_Qle. exact Ha.
  - apply Qinv_le_0_compat. change 0 with (inject_Z 0). rewrite <- Zle_Qle. exact Hb.
Qed.

(** C6: the accuracy shown for a phase is [correct / total * 100],
    computed in doubles and rounded by [toFixed(0)], and that is a
    nearest integer to the exact percentage (for every phase with at least
    one and, as any JavaScript array, fewer than 2^32 recorded results);
    5 results of which 4 are correct show "80%". *)
Theorem summary_accuracy (all : list Row) (p : string) (Hn : (0 < n_phase all p)%nat)
  (Hlen : (Z.of_nat (n_phase all p) < 2 ^ 32)%Z) :
  createResults_accuracy_cells all =
    (phase_cell all "color_test", phase_cell all "shape_test", phase_cell all "mixed") /\
  (exists k : Z, phase_cell all p = string_of_Z k ++ "%" /\
     Qabs (inject_Z k - inject_Z (Z.of_nat (c_phase all p)) /
                        inject_Z (Z.of_nat (n_phase all p)) * 100) <= 1 # 2) /\
  phase_cell rows_4_of_5 "color_test" = "80%".
Proof.
  split; [reflexivity|]. split; [|vm_compute; reflexivity].
  rewrite phase_cell_accuracy.
  assert (Hcn : (c_phase all p <= n_phase all p)%nat) by (unfold c_phase, n_phase; apply filter_length_le).
  set (c := Z.of_nat (c_phase all p)) in *. set (n := Z.of_nat (n_phase all p)) in *.
  destruct (accuracy_double c n ltac:(lia) ltac:(lia)) as (v & E & Hv0 & Hv).
  rewrite E. unfold toFixed0.
  replace (Qle_bool 0 v) with true by (symmetry; apply Qle_bool_iff; exact Hv0).
  exists (Qfloor (v + (1 # 2))). split; [reflexivity|].
  pose proof (Qfloor_le (v + (1 # 2))) as H1.
  pose proof (Qlt_floor (v + (1 # 2))) as H2.
  rewrite inject_Z_plus in H2. change (inject_Z 1) with 1 in H2.
  set (k := Qfloor (v + (1 # 2))) in *.
  apply Qabs_Qle_condition in Hv.
  assert (HN : 0 < inject_Z n) by (change 0 with (inject_Z 0); rewrite <- Zlt_Qlt; lia).
  assert (HN2 : inject_Z n < 4294967296)
    by (change 4294967296 with (inject_Z (2 ^ 32)); rewrite <- Zlt_Qlt; exact Hlen).
  set (q := inject_Z c / inject_Z n * 100) in *.
  assert (Hq : q * inject_Z n == 100 * inject_Z c)
    by (unfold q; field; intro X; rewrite X in HN; discriminate HN).
  assert (Hup : ((2 * k - 1) * n - 200 * c <= 0)%Z).
  { assert (Ei : inject_Z ((2 * k - 1) * n - 200 * c) ==
                 (2 * inject_Z k - 1) * inject_Z n - 200 * inject_Z c)
      by (unfold Qeq, inject_Z; simpl; ring).
    assert (M : (inject_Z k - (1 # 2) - q) * inject_Z n <= (1 # 1099511627776) * inject_Z n)
      by (apply Qmult_le_compat_r; lra).
    assert (X : inject_Z ((2 * k - 1) * n - 200 * c) < inject_Z 1)
      by (rewrite Ei; change (inject_Z 1) with 1; lra).
    rewrite <- Zlt_Qlt in X. lia. }
  assert (Hlo : (200 * c - (2 * k + 1) * n <= 0)%Z).
  { assert (Ei : inject_Z (200 * c - (2 * k + 1) * n) ==
                 200 * inject_Z c - (2 * inject_Z k + 1) * inject_Z n)
      by (unfold Qeq, inject_Z; simpl; ring).
    assert (M : (q - inject_Z k - (1 # 2)) * inject_Z n <= (1 # 1099511627776) * inject_Z n)
      by (apply Qmult_le_compat_r; lra).
    assert (X : inject_Z (200 * c - (2 * k + 1) * n) < inject_Z 1)
      by (rewrite Ei; change (inject_Z 1) with 1; lra).
    rewrite <- Zlt_Qlt in X. lia. }
  assert (Qup : (2 * inject_Z k - 1) * inject_Z n - 200 * inject_Z c <= 0).
  { assert (Ei : inject_Z ((2 * k - 1) * n - 200 * c) ==
                 (2 * inject_Z k - 1) * inject_Z n - 200 * inject_Z c)
      by (unfold Qeq, inject_Z; simpl; ring).
    rewrite <- Ei. change 0 with (inject_Z 0). rewrite <- Zle_Qle. exact Hup. }
  assert (Qlo : 200 * inject_Z c - (2 * inject_Z k + 1) * inject_Z n <= 0).
  { assert (Ei : inject_Z (200 * c - (2 * k + 1) * n) ==
                 200 * inject_Z c - (2 * inject_Z k + 1) * inject_Z n)
      by (unfold Qeq, inject_Z; simpl; ring).
    rewrite <- Ei. change 0 with (inject_Z 0). rewrite <- Zle_Qle. exact Hlo. }
  apply Qabs_Qle_condition. split.
  - destruct (Qlt_le_dec (inject_Z k - q) (- (1 # 2))) as [Hlt|Hge]; [exfalso|exact Hge].
    assert (P : 0 < (q - inject_Z k - (1 # 2)) * inject_Z n) by (apply Qmult_lt_0_compat; lra).
    lra.
  - destruct (Qlt_le_dec (1 # 2) (inject_Z k - q)) as [Hlt|Hge]; [exfalso|exact Hge].
    assert (P : 0 < (inject_Z k - (1 # 2) - q) * inject_Z n) by (apply Qmult_lt_0_compat; lra).
    lra.
Qed.

Lemma summary_accuracy_witness :
  exists k : Z, phase_cell rows_4_of_5 "color_test" = string_of_Z k ++ "%" /\
    Qabs (inject_Z k - inject_Z (Z.of_nat (c_phase rows_4_of_5 "color_test")) /
                       inject_Z (Z.of_nat (n_phase rows_4_of_5 "color_test")) * 100) <= 1 # 2.
Proof.
  exact (proj1 (proj2 (summary_accuracy rows_4_of_5 "color_test" ltac:(vm_compute; lia)
                        ltac:(vm_compute; reflexivity)))).
Defined.

(** Doubles, not exact ratios: 23 correct out of 40 is 57.5% exactly, and
    the cell shows "57%" because [23 / 40 * 100] is 57.49999999999999. *)
Lemma phase_cell_23_of_40 : phase_cell rows_23_of_40 "mixed" = "57%".
Proof. vm_compute. reflexivity. Qed.

(** C9: a phase with no recorded result divides 0 by 0, and its cell
    shows "NaN%". *)
Theorem summary_accuracy_empty_phase (all : list Row) (p : string)
  (H0 : n_phase all p = 0%nat) :
  phase_cell all p = "NaN%".
Proof.
  rewrite phase_cell_accuracy.
  assert (Hc : c_phase all p = 0%nat).
  { unfold c_phase. unfold n_phase in H0.
    apply length_zero_iff_nil in H0. rewrite H0. reflexivity. }
  rewrite Hc, H0. reflexivity.
Qed.

Lemma summary_accuracy_empty_phase_witness :
  n_phase rows_4_of_5 "mixed" = 0%nat /\ phase_cell rows_4_of_5 "mixed" = "NaN%".
Proof.
  assert (H : n_phase rows_4_of_5 "mixed" = 0%nat) by (vm_compute; reflexivity).
  split; [exact H|]. exact (summary_accuracy_empty_phase rows_4_of_5 "mixed" H).
Defined.

Lemma mixed_loop_nth (rng : RandomSource) (fuel : nat) :
  forall i acc ts, mixed_loop rng fuel i (2 * i) acc = Some ts ->
  forall j, (j < fuel)%nat -> exists t, nth_error ts (List.length acc + j) = Some t /\
    mixed_trial_body (i + j) (rng (2 * (i + j))%nat) (rng (S (2 * (i + j)))) = Some t.
Proof.
  induction fuel as [|fuel IH]; intros i acc ts H j Hj; [lia|].
  cbn [mixed_loop] in H.
  destruct (mixed_trial_body i (rng (2 * i)%nat) (rng (S (2 * i)))) as [t0|] eqn:Eb; [|discriminate].
  replace (S (S (2 * i))) with (2 * S i)%nat in H by lia.
  destruct j as [|j].
  - exists t0. rewrite !Nat.add_0_r. split; [|exact Eb].
    destruct (mixed_loop_spec rng fuel _ _ _ ts H) as (ts' & -> & _).
    rewrite <- app_assoc. rewrite nth_error_app2 by lia. rewrite Nat.sub_diag. reflexivity.
  - destruct (IH (S i) _ ts H j ltac:(lia)) as (t & Ht & Hb). exists t.
    rewrite length_app in Ht. cbn [List.length] in Ht.
    replace (List.length acc + S j)%nat with (List.length acc + 1 + j)%nat by lia.
    replace (i + S j)%nat with (S i + j)%nat by lia. split; assumption.
Qed.

Lemma mixed_trial_body_draws (i : nat) (r1 r2 : Q) (t : Trial) :
  mixed_trial_body i r1 r2 = Some t ->
  js_index testStimuli (Qfloor (r1 * 4)) = Some (target t) /\
  (left t, right t) = (if Qle_bool r2 (1 # 2) then (blueBall, orangeTruck) else (orangeTruck, blueBall)).
Proof.
  unfold mixed_trial_body. cbv zeta.
  change (inject_Z (Z.of_nat (List.length testStimuli))) with 4.
  destruct (js_index testStimuli (Qfloor (r1 * 4))) as [tg|]; [|discriminate].
  intro H. injection H. intros <-. cbn [target left right].
  destruct (Qle_bool r2 (1 # 2)); split; reflexivity.
Qed.

(** ** Further properties of generateMixedTrials *)

(** Trial [j] of generateMixedTrials(n) is built from the draws [2j] and
    [2j+1] of [Math.random()] alone: its target is
    [testStimuli[Math.floor(draw_2j * 4)]], and its cards are
    (blue ball, orange truck) unless [draw_2j+1 > 0.5] swaps them. *)
Theorem generateMixedTrials_draws (rng : RandomSource) (n : nat) (ts : list Trial)
  (Hgen : generateMixedTrials rng n = Some ts) (j : nat) (Hj : (j < n)%nat) :
  exists t, nth_error ts j = Some t /\
    js_index testStimuli (Qfloor (rng (2 * j)%nat * 4)) = Some (target t) /\
    (left t, right t) =
      (if Qle_bool (rng (S (2 * j))) (1 # 2) then (blueBall, orangeTruck) else (orangeTruck, blueBall)).
Proof.
  unfold generateMixedTrials in Hgen. change 0%nat with (2 * 0)%nat in Hgen at 2.
  destruct (mixed_loop_nth rng n 0 [] ts Hgen j Hj) as (t & Ht & Hb).
  exists t. split; [exact Ht|]. exact (mixed_trial_body_draws _ _ _ _ Hb).
Qed.

Lemma generateMixedTrials_draws_witness :
  exists t, nth_error mixed_half_3 1 = Some t /\
    js_index testStimuli (Qfloor (rng_half (2 * 1)%nat * 4)) = Some (target t) /\
    (left t, right t) =
      (if Qle_bool (rng_half (S (2 * 1))) (1 # 2) then (blueBall, orangeTruck) else (orangeTruck, blueBall)).
Proof.
  exact (generateMixedTrials_draws rng_half 3 mixed_half_3 ltac:(vm_compute; reflexivity) 1 ltac:(lia)).
Defined.

(** Asking for more trials from the same random source extends the list:
    generateMixedTrials(n) is a prefix of generateMixedTrials(n + m). *)
Theorem generateMixedTrials_prefix (rng : RandomSource) (n m : nat) (a b : list Trial)
  (Ha : generateMixedTrials rng n = Some a) (Hb : generateMixedTrials rng (n + m) = Some b) :
  exists c, b = (a ++ c)%list /\ List.length c = m.
Proof.
  unfold generateMixedTrials in *. rewrite mixed_loop_app, Ha in Hb.
  destruct (mixed_loop_spec rng m _ _ a b Hb) as (c & -> & Hl & _).
  exists c. split; [reflexivity|exact Hl].
Qed.

Lemma generateMixedTrials_prefix_witness :
  exists c, mixed_half_3 = (firstn 1 mixed_half_3 ++ c)%list /\ List.length c = 2%nat.
Proof.
  exact (generateMixedTrials_prefix rng_half 1 2 (firstn 1 mixed_half_3) mixed_half_3
           ltac:(vm_compute; reflexivity) ltac:(vm_compute; reflexivity)).
Defined.

(** generateMixedTrials(n) throws exactly when one of the target draws
    [2j] (j < n) falls outside [0, 1), which leaves
    [testStimuli[Math.floor(r * 4)]] undefined; the swap draws [2j+1] can
    take any value. *)
Theorem generateMixedTrials_error (rng : RandomSource) (n : nat) :
  generateMixedTrials rng n = None <->
  exists j, (j < n)%nat /\ ~ (0 <= rng (2 * j)%nat /\ rng (2 * j)%nat < 1).
Proof.
  unfold generateMixedTrials. change (mixed_loop rng n 0 0 []) with (mixed_loop rng n 0 (2 * 0) []).
  rewrite mixed_loop_none_iff. split; intros (j & Hj & Hn); exists j; (split; [lia|exact Hn]).
Qed.

(** ** createTimeline *)

Lemma slice_count_le (e : Z) : (slice_count e <= 5)%nat.
Proof. unfold slice_count. destruct (Z.ltb_spec e 0); lia. Qed.

Lemma js_slice0_five {A} (l : list A) (e : Z) :
  List.length l = 5%nat -> js_slice0 l e = firstn (slice_count e) l.
Proof. intro H. unfold js_slice0, slice_count. rewrite H. reflexivity. Qed.

Lemma length_firstn_five {A} (l : list A) (e : Z) :
  List.length l = 5%nat -> List.length (firstn (slice_count e) l) = slice_count e.
Proof. intro H. rewrite length_firstn, H. pose proof (slice_count_le e). lia. Qed.

Lemma length_map_index_from {A B} (f : A -> Z -> B) (l : list A) :
  forall i, List.length (map_index_from f i l) = List.length l.
Proof. induction l as [|x l IH]; intro i; simpl; [reflexivity|]. rewrite IH. reflexivity. Qed.

Lemma map_map_index_from {A B C} (g : B -> C) (f : A -> Z -> B) (l : list A) :
  forall i, map g (map_index_from f i l) = map_index_from (fun x k => g (f x k)) i l.
Proof. induction l as [|x l IH]; intro i; simpl; [reflexivity|]. rewrite IH. reflexivity. Qed.

Lemma map_index_from_seq {A B} (f : A -> Z -> B) (d : A) (l : list A) :
  forall i, map_index_from f i l = map (fun k => f (nth k l d) (i + Z.of_nat k)%Z) (seq 0 (List.length l)).
Proof.
  induction l as [|x l IH]; intro i; simpl; [reflexivity|].
  rewrite Z.add_0_r, IH, <- seq_shift, map_map. f_equal. apply map_ext. intro k.
  f_equal. lia.
Qed.

Lemma In_map_index_from {A B} (f : A -> Z -> B) (l : list A) (y : B) :
  forall i, In y (map_index_from f i l) -> exists x k, In x l /\ y = f x k.
Proof.
  induction l as [|x l IH]; intros i H; simpl in H; [destruct H|].
  destruct H as [<- | H].
  - exists x, i. split; [left; reflexivity|reflexivity].
  - destruct (IH _ H) as (x' & k & Hx & ->). exists x', k. split; [right; exact Hx|reflexivity].
Qed.

Lemma trial_screens_app (a b : list Screen) :
  trial_screens (a ++ b) = (trial_screens a ++ trial_screens b)%list.
Proof. unfold trial_screens. apply flat_map_app. Qed.

Lemma trial_screens_test (p : string) (D : Trial -> string) (l : list Trial) :
  forall i, trial_screens (map_index_from (fun t k => createTestTrial t p (D t) k) i l) =
  map_index_from (fun t k => mkTrialScreen t (toUpperCase (D t))
    (mkScreenData "dccs" p (k + 1) (D t) (correct t) (name (target t))) p (k + 1) (D t) false) i l.
Proof. induction l as [|x l IH]; intro i; simpl; [reflexivity|]. rewrite <- IH. reflexivity. Qed.

Lemma trial_screens_practice (l : list Trial) :
  forall i, trial_screens (map_index_from createPracticeTrial i l) =
  map_index_from (fun t k => mkTrialScreen t (toUpperCase "color")
    (mkScreenData "dccs" "color_practice" (k + 1) "color" (correct t) (name (target t)))
    "color_practice" (k + 1) "color" true) i l.
Proof. induction l as [|x l IH]; intro i; simpl; [reflexivity|]. rewrite <- IH. reflexivity. Qed.

Lemma count_button_test (p : string) (D : Trial -> string) (l : list Trial) :
  forall i, filter is_button (map_index_from (fun t k => createTestTrial t p (D t) k) i l) = [].
Proof. induction l as [|x l IH]; intro i; simpl; [reflexivity|]. apply IH. Qed.

Lemma count_button_practice (l : list Trial) :
  forall i, filter is_button (map_index_from createPracticeTrial i l) = [].
Proof. induction l as [|x l IH]; intro i; simpl; [reflexivity|]. apply IH. Qed.

Lemma SResults_not_in_test (p : string) (D : Trial -> string) (l : list Trial) (i : Z) :
  ~ In SResults (map_index_from (fun t k => createTestTrial t p (D t) k) i l).
Proof. intro H. destruct (In_map_index_from _ _ _ _ H) as (x & k & _ & E). discriminate. Qed.

Lemma SResults_not_in_practice (l : list Trial) (i : Z) :
  ~ In SResults (map_index_from createPracticeTrial i l).
Proof. intro H. destruct (In_map_index_from _ _ _ _ H) as (x & k & _ & E). discriminate. Qed.

Lemma mixed_screens_ok (l : list Trial) :
  (forall t, In t l -> exists d, dimension t = Some d) ->
  forall i, mixed_screens_from i l =
    Some (map_index_from (fun t k => createTestTrial t "mixed" (dim_str t) k) i l).
Proof.
  induction l as [|x l IH]; intros H i; simpl; [reflexivity|].
  destruct (H x (or_introl eq_refl)) as [d Hd]. rewrite Hd.
  rewrite IH by (intros t Ht; apply H; right; exact Ht).
  try (replace (dim_str x) with d by (unfold dim_str; rewrite Hd; reflexivity)). reflexivity.
Qed.

Lemma generated_dimensions (rng : RandomSource) (n : nat) (ms : list Trial) :
  generateMixedTrials rng n = Some ms -> forall t, In t ms -> exists d, dimension t = Some d.
Proof.
  intros H t Ht. destruct (In_nth_error ms t Ht) as [j Hj].
  exists (dim_of j). exact (proj1 (proj2 (generateMixedTrials_spec rng n ms H) j t Hj)).
Qed.

Lemma createTimeline_unfold (rng : RandomSource) (opts : TimelineOptions) (st : GameState) :
  createTimeline rng opts st =
  match generateMixedTrials rng (n_mixed opts) with
  | None => (resetState, None)
  | Some ms => (resetState, Some (
      [SWelcome] ++
      (if show_instructions opts then createColorInstructions else []) ++
      map_index_from createPracticeTrial 0 (firstn (n_practice opts) COLOR_PRACTICE_TRIALS) ++
      (if show_instructions opts then createColorTestInstructions else []) ++
      map_index_from (fun t i => createTestTrial t "color_test" "color" i) 0
        (firstn (n_test opts) COLOR_TEST_TRIALS) ++
      (if show_instructions opts then [createShapeInstructions] else []) ++
      map_index_from (fun t i => createTestTrial t "shape_test" "shape" i) 0
        (firstn (n_test opts) SHAPE_TEST_TRIALS) ++
      (if show_instructions opts then [createMixedInstructions] else []) ++
      map_index_from (fun t k => createTestTrial t "mixed" (dim_str t) k) 0 ms ++
      (if show_results opts then [SResults] else []))%list)
  end.
Proof.
  unfold createTimeline, n_mixed. cbv zeta.
  destruct (generateMixedTrials rng _) as [ms|] eqn:E; [|reflexivity].
  rewrite (mixed_screens_ok ms (generated_dimensions _ _ _ E)).
  rewrite !js_slice0_five by reflexivity.
  unfold n_practice, n_test, show_instructions, show_results.
  rewrite <- !app_assoc. reflexivity.
Qed.

Lemma generateMixedTrials_none (rng : RandomSource) (n : nat) :
  generateMixedTrials rng n = None <->
  exists j, (j < n)%nat /\ ~ (0 <= rng (2 * j)%nat /\ rng (2 * j)%nat < 1).
Proof.
  unfold generateMixedTrials. change (mixed_loop rng n 0 0 []) with (mixed_loop rng n 0 (2 * 0) []).
  rewrite mixed_loop_none_iff. split; intros (j & Hj & Hn); exists j; (split; [lia|exact Hn]).
Qed.

Lemma map_index_from_map {A B} (f : A -> Z -> B) (g : A -> B) (l : list A) (i : Z) :
  (forall x k, f x k = g x) -> map_index_from f i l = map g l.
Proof.
  intro H. revert i. induction l as [|x l IH]; intro i; simpl; [reflexivity|].
  rewrite H, IH. reflexivity.
Qed.

Lemma labels_seq (p d : string) (l : list Trial) :
  map_index_from (fun (_ : Trial) (k : Z) => (p, (k + 1)%Z, d)) 0 l = screen_labels p d (List.length l).
Proof.
  rewrite (map_index_from_seq _ (fixed blueBall blueBall blueBall 0)). unfold screen_labels.
  apply map_ext. intro k. f_equal. f_equal. lia.
Qed.

Lemma test_piece (p d : string) (l : list Trial) :
  map ts_trial (trial_screens (map_index_from (fun t i => createTestTrial t p d i) 0 l)) = l /\
  map screen_label (trial_screens (map_index_from (fun t i => createTestTrial t p d i) 0 l)) =
    screen_labels p d (List.length l).
Proof.
  rewrite (trial_screens_test p (fun _ => d)), !map_map_index_from. split.
  - rewrite (map_index_from_map _ (fun x => x)) by reflexivity. apply map_id.
  - exact (labels_seq p d l).
Qed.

Lemma practice_piece (l : list Trial) :
  map ts_trial (trial_screens (map_index_from createPracticeTrial 0 l)) = l /\
  map screen_label (trial_screens (map_index_from createPracticeTrial 0 l)) =
    screen_labels "color_practice" "color" (List.length l).
Proof.
  rewrite trial_screens_practice, !map_map_index_from. split.
  - rewrite (map_index_from_map _ (fun x => x)) by reflexivity. apply map_id.
  - exact (labels_seq "color_practice" "color" l).
Qed.

Lemma mixed_piece (rng : RandomSource) (n : nat) (ms : list Trial) :
  generateMixedTrials rng n = Some ms ->
  map ts_trial (trial_screens (map_index_from (fun t k => createTestTrial t "mixed" (dim_str t) k) 0 ms)) = ms /\
  map screen_label (trial_screens (map_index_from (fun t k => createTestTrial t "mixed" (dim_str t) k) 0 ms)) =
    map (fun k => ("mixed", Z.of_nat (S k), dim_of k)) (seq 0 n).
Proof.
  intro E. destruct (generateMixedTrials_spec rng n ms E) as [Hlen Hall].
  rewrite trial_screens_test, !map_map_index_from. split.
  - rewrite (map_index_from_map _ (fun x => x)) by reflexivity. apply map_id.
  - set (t0 := fixed blueBall blueBall blueBall 0). rewrite (map_index_from_seq _ t0), Hlen.
    apply map_ext_in. intros k Hk. apply in_seq in Hk. cbn [screen_label ts_data phase trial_num data_dimension].
    assert (Hn : nth_error ms k = Some (nth k ms t0)) by (apply nth_error_nth'; lia).
    unfold screen_label, dim_str. cbn [ts_data phase trial_num data_dimension]. rewrite (proj1 (Hall k _ Hn)). f_equal. f_equal. lia.
Qed.

Lemma in_fixed_well_posed (d : string) (L : list Trial) (n : nat) (t : Trial) :
  forallb (well_posed d) L = true -> In t (firstn n L) -> well_posed d t = true.
Proof.
  intros HL Ht. rewrite forallb_forall in HL. apply HL. rewrite <- (firstn_skipn n L). apply in_or_app. left. exact Ht.
Qed.

Lemma test_piece_consistent (p d : string) (l : list Trial) (ts : TrialScreen) :
  String.eqb p "color_practice" = false ->
  (forall t, In t l -> well_posed d t = true) ->
  In ts (trial_screens (map_index_from (fun t i => createTestTrial t p d i) 0 l)) ->
  consistent_screen ts.
Proof.
  intros Hp Hw Hin. rewrite (trial_screens_test p (fun _ => d)) in Hin.
  destruct (In_map_index_from _ _ _ _ Hin) as (t & k & Ht & ->).
  unfold consistent_screen. cbn. rewrite Hp. repeat split. apply Hw. exact Ht.
Qed.

Lemma practice_piece_consistent (l : list Trial) (ts : TrialScreen) :
  (forall t, In t l -> well_posed "color" t = true) ->
  In ts (trial_screens (map_index_from createPracticeTrial 0 l)) ->
  consistent_screen ts.
Proof.
  intros Hw Hin. rewrite trial_screens_practice in Hin.
  destruct (In_map_index_from _ _ _ _ Hin) as (t & k & Ht & ->).
  unfold consistent_screen. cbn. repeat split. apply Hw. exact Ht.
Qed.

Lemma mixed_piece_consistent (rng : RandomSource) (n : nat) (ms : list Trial) (ts : TrialScreen) :
  generateMixedTrials rng n = Some ms ->
  In ts (trial_screens (map_index_from (fun t k => createTestTrial t "mixed" (dim_str t) k) 0 ms)) ->
  consistent_screen ts.
Proof.
  intros E Hin. rewrite trial_screens_test in Hin.
  destruct (In_map_index_from _ _ _ _ Hin) as (t & k & Ht & ->).
  destruct (In_nth_error ms t Ht) as [j Hj].
  destruct (proj2 (generateMixedTrials_spec rng n ms E) j t Hj) as [Hd Hw].
  unfold consistent_screen. cbn. unfold dim_str. rewrite Hd. repeat split. exact Hw.
Qed.

(** ** Properties of createTimeline *)

(** Whenever the random source lets generateMixedTrials succeed (each
    target draw [2j], [j < mixedTrials], in [0, 1)), createTimeline resets
    the state and returns a timeline that opens with the welcome screen,
    has 7 instruction screens or none, ends with the results screen exactly
    when [showResults], and has
    [1 + 7·showInstructions + practice + 2·test + mixed + showResults]
    screens, [practice] and [test] being what [slice(0, n)] keeps of the
    5-trial lists (negative [n] counting from the end). *)
Theorem createTimeline_structure (rng : RandomSource) (opts : TimelineOptions) (st : GameState)
  (Hr : forall j, (j < n_mixed opts)%nat -> 0 <= rng (2 * j)%nat /\ rng (2 * j)%nat < 1) :
  exists tl, createTimeline rng opts st = (resetState, Some tl) /\
    hd_error tl = Some SWelcome /\
    List.length tl = (1 + (if show_instructions opts then 7 else 0) + n_practice opts +
                      2 * n_test opts + n_mixed opts + (if show_results opts then 1 else 0))%nat /\
    List.length (filter is_button tl) = (if show_instructions opts then 7 else 0)%nat /\
    (In SResults tl <-> show_results opts = true) /\
    (show_results opts = true -> last tl SWelcome = SResults).
Proof.
  rewrite createTimeline_unfold.
  destruct (generateMixedTrials rng (n_mixed opts)) as [ms|] eqn:E.
  2: { exfalso. apply generateMixedTrials_none in E. destruct E as (j & Hj & Hn). exact (Hn (Hr j Hj)). }
  eexists. split; [reflexivity|].
  pose proof (proj1 (generateMixedTrials_spec rng _ ms E)) as Hlen.
  split; [reflexivity|]. split; [|split; [|split]].
  - unfold n_practice, n_test. rewrite !length_app, !length_map_index_from, !length_firstn_five by reflexivity. rewrite Hlen.
    destruct (show_instructions opts), (show_results opts); simpl; lia.
  - rewrite !filter_app, count_button_practice, !count_button_test.
    try rewrite (count_button_test "color_test" (fun _ => "color")), (count_button_test "shape_test" (fun _ => "shape")); try rewrite (count_button_test "shape_test" (fun _ => "shape")).
    destruct (show_instructions opts), (show_results opts); reflexivity.
  - rewrite !in_app_iff. split.
    + intro H. destruct (show_results opts); [reflexivity|exfalso].
      unfold createColorInstructions, createColorTestInstructions in H.
      destruct (show_instructions opts);
        repeat match goal with
        | H : _ \/ _ |- _ => destruct H as [H|H]
        | H : In SResults (map_index_from createPracticeTrial _ _) |- _ => exact (SResults_not_in_practice _ _ H)
        | H : In SResults (map_index_from (fun t i => createTestTrial t ?p ?d i) _ _) |- _ =>
            exact (SResults_not_in_test p (fun _ => d) _ _ H)
        | H : In SResults (map_index_from (fun t k => createTestTrial t "mixed" (dim_str t) k) _ _) |- _ =>
            exact (SResults_not_in_test "mixed" dim_str _ _ H)
        | H : In _ [] |- _ => destruct H
        | H : _ = SResults |- _ => discriminate H
        | H : In _ (_ :: _) |- _ => destruct H as [H|H]
        end.
    + intro H. rewrite H. right. right. right. right. right. right. right. right. right. left. reflexivity.
  - intro H. rewrite H. rewrite !app_assoc. apply last_last.
Qed.

Lemma createTimeline_structure_witness :
  (forall j, (j < n_mixed opts_demo)%nat -> 0 <= rng_half (2 * j)%nat /\ rng_half (2 * j)%nat < 1) /\
  exists tl, createTimeline rng_half opts_demo resetState = (resetState, Some tl) /\
    List.length tl = 21%nat.
Proof.
  assert (Hr : forall j, (j < n_mixed opts_demo)%nat -> 0 <= rng_half (2 * j)%nat /\ rng_half (2 * j)%nat < 1)
    by (intros j _; unfold rng_half, Qle, Qlt; simpl; lia).
  split; [exact Hr|].
  destruct (createTimeline_structure rng_half opts_demo resetState Hr) as (tl & E & _ & L & _).
  exists tl. split; [exact E|]. rewrite L. reflexivity.
Defined.

(** The trial screens of a timeline are, in order: the first practice
    trials of COLOR_PRACTICE_TRIALS, the first test trials of
    COLOR_TEST_TRIALS and of SHAPE_TEST_TRIALS, then the generated mixed
    trials; each phase records [trial_num] 1, 2, ... and its dimension
    (the mixed ones alternating color, shape). *)
Theorem createTimeline_trial_screens (rng : RandomSource) (opts : TimelineOptions)
  (st st' : GameState) (tl : list Screen)
  (H : createTimeline rng opts st = (st', Some tl)) :
  exists ms, generateMixedTrials rng (n_mixed opts) = Some ms /\
  map ts_trial (trial_screens tl) =
    (firstn (n_practice opts) COLOR_PRACTICE_TRIALS ++ firstn (n_test opts) COLOR_TEST_TRIALS ++
     firstn (n_test opts) SHAPE_TEST_TRIALS ++ ms)%list /\
  map screen_label (trial_screens tl) =
    (screen_labels "color_practice" "color" (n_practice opts) ++
     screen_labels "color_test" "color" (n_test opts) ++
     screen_labels "shape_test" "shape" (n_test opts) ++
     map (fun k => ("mixed", Z.of_nat (S k), dim_of k)) (seq 0 (n_mixed opts)))%list.
Proof.
  rewrite createTimeline_unfold in H.
  destruct (generateMixedTrials rng (n_mixed opts)) as [ms|] eqn:E; [|discriminate].
  injection H. intros <- _. exists ms. split; [reflexivity|].
  destruct (practice_piece (firstn (n_practice opts) COLOR_PRACTICE_TRIALS)) as [P1 P2].
  destruct (test_piece "color_test" "color" (firstn (n_test opts) COLOR_TEST_TRIALS)) as [C1 C2].
  destruct (test_piece "shape_test" "shape" (firstn (n_test opts) SHAPE_TEST_TRIALS)) as [S1 S2].
  destruct (mixed_piece rng _ ms E) as [M1 M2].
  change (trial_screens (SWelcome :: ?r)) with (trial_screens r).
  rewrite !trial_screens_app, !map_app.
  replace (trial_screens (if show_instructions opts then createColorInstructions else [])) with (@nil TrialScreen)
    by (destruct (show_instructions opts); reflexivity).
  replace (trial_screens (if show_instructions opts then createColorTestInstructions else [])) with (@nil TrialScreen)
    by (destruct (show_instructions opts); reflexivity).
  replace (trial_screens (if show_instructions opts then [createShapeInstructions] else [])) with (@nil TrialScreen)
    by (destruct (show_instructions opts); reflexivity).
  replace (trial_screens (if show_instructions opts then [createMixedInstructions] else [])) with (@nil TrialScreen)
    by (destruct (show_instructions opts); reflexivity).
  replace (trial_screens (if show_results opts then [SResults] else [])) with (@nil TrialScreen)
    by (destruct (show_results opts); reflexivity).
  rewrite P1, P2, C1, C2, S1, S2, M1, M2. unfold n_practice, n_test.
  rewrite !length_firstn_five by reflexivity.
  simpl. rewrite !app_nil_r. split; reflexivity.
Qed.

Lemma createTimeline_trial_screens_witness :
  exists st' tl, createTimeline rng_half opts_demo resetState = (st', Some tl) /\
  exists ms, generateMixedTrials rng_half (n_mixed opts_demo) = Some ms /\
  map ts_trial (trial_screens tl) =
    (firstn (n_practice opts_demo) COLOR_PRACTICE_TRIALS ++ firstn (n_test opts_demo) COLOR_TEST_TRIALS ++
     firstn (n_test opts_demo) SHAPE_TEST_TRIALS ++ ms)%list /\
  map screen_label (trial_screens tl) =
    (screen_labels "color_practice" "color" (n_practice opts_demo) ++
     screen_labels "color_test" "color" (n_test opts_demo) ++
     screen_labels "shape_test" "shape" (n_test opts_demo) ++
     map (fun k => ("mixed", Z.of_nat (S k), dim_of k)) (seq 0 (n_mixed opts_demo)))%list.
Proof.
  destruct (createTimeline rng_half opts_demo resetState) as [st' [tl|]] eqn:E.
  - exists st', tl. split; [reflexivity|].
    exact (createTimeline_trial_screens rng_half opts_demo resetState st' tl E).
  - exfalso. pose proof (f_equal snd E) as X. vm_compute in X. discriminate X.
Defined.

(** Every trial screen of a timeline is consistent: it records task
    [dccs], the rendered trial's [correct] index and target name, its cue
    is the recorded dimension upper-cased, [on_load] set up the trial with
    the recorded phase, number and dimension, feedback only in
    [color_practice], and the trial has exactly one card matching the
    target on the recorded dimension, the one [correct_response] names. *)
Theorem createTimeline_screens_consistent (rng : RandomSource) (opts : TimelineOptions)
  (st st' : GameState) (tl : list Screen)
  (H : createTimeline rng opts st = (st', Some tl)) :
  forall ts, In ts (trial_screens tl) -> consistent_screen ts.
Proof.
  rewrite createTimeline_unfold in H.
  destruct (generateMixedTrials rng (n_mixed opts)) as [ms|] eqn:E; [|discriminate].
  injection H. intros <- _. intros ts Hts.
  change (trial_screens (SWelcome :: ?r)) with (trial_screens r) in Hts.
  rewrite !trial_screens_app, !in_app_iff in Hts.
  destruct (show_instructions opts), (show_results opts); simpl in Hts;
  repeat match goal with
  | H : _ \/ _ |- _ => destruct H as [H|H]
  | H : False |- _ => destruct H
  | H : In _ (trial_screens (map_index_from createPracticeTrial _ (firstn ?n ?L))) |- _ =>
      exact (practice_piece_consistent _ ts
               (fun t Ht => in_fixed_well_posed "color" L n t eq_refl Ht) H)
  | H : In _ (trial_screens (map_index_from (fun t k => createTestTrial t "mixed" (dim_str t) k) _ _)) |- _ =>
      exact (mixed_piece_consistent _ _ _ ts E H)
  | H : In _ (trial_screens (map_index_from (fun t i => createTestTrial t ?p ?d i) _ (firstn ?n ?L))) |- _ =>
      exact (test_piece_consistent p d _ ts eq_refl
               (fun t Ht => in_fixed_well_posed d L n t eq_refl Ht) H)
  end.
Qed.

Lemma createTimeline_screens_consistent_witness :
  exists st' tl, createTimeline rng_half no_options resetState = (st', Some tl) /\
  forall ts, In ts (trial_screens tl) -> consistent_screen ts.
Proof.
  destruct (createTimeline rng_half no_options resetState) as [st' [tl|]] eqn:E.
  - exists st', tl. split; [reflexivity|].
    exact (createTimeline_screens_consistent rng_half no_options resetState st' tl E).
  - exfalso. pose proof (f_equal snd E) as X. vm_compute in X. discriminate X.
Defined.

(** createTimeline always resets the state (audio off, no phase, no
    trial completed), whatever it was; it throws exactly when a target
    draw of generateMixedTrials(mixedTrials) falls outside [0, 1). *)
Theorem createTimeline_reset_and_error (rng : RandomSource) (opts : TimelineOptions) (st : GameState) :
  fst (createTimeline rng opts st) = mkGameState false "" 0 /\
  (snd (createTimeline rng opts st) = None <->
   exists j, (j < n_mixed opts)%nat /\ ~ (0 <= rng (2 * j)%nat /\ rng (2 * j)%nat < 1)).
Proof.
  rewrite createTimeline_unfold, <- generateMixedTrials_none.
  destruct (generateMixedTrials rng (n_mixed opts)); simpl.
  - split; [reflexivity|]. split; discriminate.
  - split; [reflexivity|]. split; reflexivity.
Qed.

(** ** Further properties of setupTrial *)

Lemma js_index_seq (n : nat) (z : Z) :
  (0 <= z < Z.of_nat n)%Z -> js_index (seq 0 n) z = Some (Z.to_nat z).
Proof.
  intro H. unfold js_index. replace (z <? 0)%Z with false by (symmetry; apply Z.ltb_ge; lia).
  rewrite (nth_error_nth' _ 0%nat) by (rewrite length_seq; lia).
  rewrite seq_nth by lia. reflexivity.
Qed.

Lemma js_index_seq_none (n : nat) (z : Z) :
  ~ (0 <= z < Z.of_nat n)%Z -> js_index (seq 0 n) z = None.
Proof.
  intro H. unfold js_index. destruct (Z.ltb_spec z 0); [reflexivity|].
  apply nth_error_None. rewrite length_seq. lia.
Qed.

Lemma on_click_feedback_timer (env : Env) (trial : Trial) (startTime : Q) (s : TState) (ci : nat) (now : Q) :
  responded s = false -> (0 <= correct trial < Z.of_nat (ncards env))%Z ->
  let ok := Z.eqb (Z.of_nat ci) (correct trial) in
  let s1 := on_click env trial true startTime ci now s in
  timers s1 = (timers s ++ [mkTimer (now + (if ok then 1500 else 2500)) (CbFinish ci ok)])%list /\
  finished s1 = finished s.
Proof.
  intros Hr Hc ok s1. unfold s1, on_click. rewrite Hr. fold ok.
  destruct (feedback_div env), ok; cbn.
  - unfold playAudio. destruct (_ && _); split; reflexivity.
  - unfold highlight_correct. rewrite (js_index_seq _ _ Hc).
    unfold playAudio. destruct (_ && _); split; reflexivity.
  - split; reflexivity.
  - split; reflexivity.
Qed.

(** On the feedback path, a first click on card [ci] of a trial whose
    [correct] index is one of the cards schedules one completion timer,
    due 1500 ms (correct) or 2500 ms (incorrect) after the click, and
    reports nothing yet; the timer does nothing before it is due, and once
    due it reports [{ci, correct, rt}] with an [rt] that is at least the
    click's own reaction time plus that delay. *)
Theorem feedback_completion_delay (env : Env) (trial : Trial) (startTime : Q) (s : TState)
  (ci : nat) (now : Q)
  (Hr : responded s = false) (Hci : (ci < ncards env)%nat)
  (Hc : (0 <= correct trial < Z.of_nat (ncards env))%Z) :
  let ok := Z.eqb (Z.of_nat ci) (correct trial) in
  let delay := if ok then 1500 else 2500 in
  let s1 := step env trial true startTime s (Click ci now) in
  let j := List.length (timers s) in
  finished s1 = finished s /\
  nth_error (timers s1) j = Some (mkTimer (now + delay) (CbFinish ci ok)) /\
  (forall now' cur, now' < now + delay -> step env trial true startTime s1 (Fire j now' cur) = s1) /\
  (forall now' cur, now + delay <= now' ->
     finished (step env trial true startTime s1 (Fire j now' cur)) =
       (finished s ++ [mkFinish ci ok (now' - startTime)])%list /\
     (now - startTime) + delay <= now' - startTime).
Proof.
  intros ok delay s1 j.
  assert (Hs1 : s1 = on_click env trial true startTime ci now s).
  { unfold s1. simpl. replace (Nat.ltb ci (ncards env)) with true by (symmetry; apply Nat.ltb_lt; exact Hci).
    reflexivity. }
  destruct (on_click_feedback_timer env trial startTime s ci now Hr Hc) as [Ht Hf].
  fold ok in Ht. rewrite <- Hs1 in Ht, Hf.
  assert (Hj : nth_error (timers s1) j = Some (mkTimer (now + delay) (CbFinish ci ok))).
  { rewrite Ht. unfold j. rewrite nth_error_app2 by lia. rewrite Nat.sub_diag. reflexivity. }
  clearbody s1. split; [exact Hf|]. split; [exact Hj|]. split.
  - intros now' cur Hlt. simpl. rewrite Hj. cbn [due].
    replace (Qle_bool (now + delay) now') with false; [reflexivity|].
    symmetry. apply not_true_iff_false. rewrite Qle_bool_iff. intro Hle. apply (Qlt_not_le _ _ Hlt Hle).
  - intros now' cur Hle. simpl. rewrite Hj. cbn [due cb].
    replace (Qle_bool (now + delay) now') with true by (symmetry; apply Qle_bool_iff; exact Hle).
    split.
    + cbn. rewrite Hf. reflexivity.
    + lra.
Qed.

Lemma feedback_completion_delay_witness :
  (0 <= correct trial_demo < Z.of_nat (ncards env_demo))%Z /\
  finished (step env_demo trial_demo true 0
              (step env_demo trial_demo true 0 (setupTrial env_demo "color" true 0) (Click 1 400))
              (Fire 0 2900 true)) = [mkFinish 1 false (2900 - 0)].
Proof.
  assert (Hc : (0 <= correct trial_demo < Z.of_nat (ncards env_demo))%Z) by (simpl; lia).
  split; [exact Hc|].
  exact (proj1 (proj2 (proj2 (proj2 (feedback_completion_delay env_demo trial_demo 0
    (setupTrial env_demo "color" true 0) 1 400 eq_refl (le_n 2) Hc))) 2900 true
    ltac:(vm_compute; intro; discriminate))).
Defined.

Lemma stuck_step (env : Env) (trial : Trial) (wf : bool) (startTime : Q) (s : TState) (e : Event) :
  responded s = true -> finished s = [] -> Forall (fun tm => is_finish tm = false) (timers s) ->
  let s' := step env trial wf startTime s e in
  responded s' = true /\ finished s' = [] /\ Forall (fun tm => is_finish tm = false) (timers s').
Proof.
  intros Hr Hf Ht s'. unfold s'. destruct e as [ci now | j now cur]; simpl.
  - destruct (Nat.ltb ci (ncards env)); [unfold on_click; rewrite Hr|]; auto.
  - destruct (nth_error (timers s) j) as [tm|] eqn:Ej; [|auto].
    destruct (Qle_bool (due tm) now); [|auto].
    pose proof (proj1 (Forall_forall _ _) Ht tm (nth_error_In _ _ Ej)) as Htm.
    unfold is_finish in Htm. destruct (cb tm); [discriminate|]. simpl. rewrite Hr. simpl.
    split; [exact Hr|]. split; [exact Hf|]. apply Forall_remove_nth. exact Ht.
Qed.

Lemma stuck_run (env : Env) (trial : Trial) (wf : bool) (startTime : Q) (evs : list Event) :
  forall s, responded s = true -> finished s = [] -> Forall (fun tm => is_finish tm = false) (timers s) ->
  finished (run env trial wf startTime evs s) = [].
Proof.
  induction evs as [|e evs IH]; intros s Hr Hf Ht; [exact Hf|].
  destruct (stuck_step env trial wf startTime s e Hr Hf Ht) as (Hr' & Hf' & Ht').
  exact (IH _ Hr' Hf' Ht').
Qed.

(** On the feedback path, an incorrect first click with a [#feedback]
    element highlights card [trial.correct] when that card exists.  When
    it does not, [cards[trial.correct]] is undefined: the handler throws
    after latching [responded], no completion timer is set, and — with no
    result reported or scheduled before — no later click or timer ever
    calls [finishTrial]: the trial never ends. *)
Theorem incorrect_feedback_highlight_or_hang (env : Env) (trial : Trial) (startTime : Q)
  (s : TState) (ci : nat) (now : Q)
  (Hr : responded s = false) (Hci : (ci < ncards env)%nat) (Hdiv : feedback_div env = true)
  (Hwrong : Z.eqb (Z.of_nat ci) (correct trial) = false) :
  let s1 := step env trial true startTime s (Click ci now) in
  ((0 <= correct trial < Z.of_nat (ncards env))%Z ->
     highlighted s1 = (highlighted s ++ [Z.to_nat (correct trial)])%list /\ threw s1 = threw s) /\
  (~ (0 <= correct trial < Z.of_nat (ncards env))%Z ->
     threw s1 = true /\ highlighted s1 = highlighted s /\ timers s1 = timers s /\
     (finished s = [] -> Forall (fun tm => is_finish tm = false) (timers s) ->
      forall evs, finished (run env trial true startTime evs s1) = [])).
Proof.
  intro s1.
  assert (Hs1 : s1 = on_click env trial true startTime ci now s).
  { unfold s1. simpl. replace (Nat.ltb ci (ncards env)) with true by (symmetry; apply Nat.ltb_lt; exact Hci).
    reflexivity. }
  clearbody s1. subst s1. unfold on_click. rewrite Hr, Hdiv, Hwrong. cbn -[playAudio].
  split.
  - intro Hc. unfold highlight_correct. rewrite (js_index_seq _ _ Hc). cbn -[playAudio].
    unfold playAudio. destruct (_ && _); split; reflexivity.
  - intro Hc. unfold highlight_correct. rewrite (js_index_seq_none _ _ Hc). cbn -[playAudio].
    unfold playAudio. destruct (audio_enabled env && speech_available env); cbn;
      (split; [reflexivity|]); (split; [reflexivity|]); (split; [reflexivity|]);
      intros Hf Ht evs; apply stuck_run; cbn; assumption || reflexivity.
Qed.

Lemma incorrect_feedback_highlight_or_hang_witness :
  let s1 := step env_demo trial_bad_index true 0 (setupTrial env_demo "color" true 0) (Click 0 300) in
  threw s1 = true /\
  finished (run env_demo trial_bad_index true 0 [Fire 0 10000 true; Click 1 10500] s1) = [].
Proof.
  intro s1.
  destruct (proj2 (incorrect_feedback_highlight_or_hang env_demo trial_bad_index 0
    (setupTrial env_demo "color" true 0) 0 300 eq_refl (le_S _ _ (le_n 1)) eq_refl eq_refl)
    ltac:(simpl; lia)) as (Ht & _ & _ & Hrun).
  split; [exact Ht|].
  exact (Hrun eq_refl (Forall_nil _) _).
Defined.

Lemma quiet_step (env : Env) (trial : Trial) (startTime : Q) (s : TState) (e : Event) :
  feedback s = None -> highlighted s = [] -> threw s = false ->
  (timers s = [] \/ timers s = [mkTimer (startTime + 5000) CbPrompt]) ->
  let s' := step env trial false startTime s e in
  feedback s' = None /\ highlighted s' = [] /\ threw s' = false /\
  (timers s' = [] \/ timers s' = [mkTimer (startTime + 5000) CbPrompt]).
Proof.
  intros Hf Hh Ht Htm s'. unfold s'. destruct e as [ci now | j now cur]; simpl.
  - destruct (Nat.ltb ci (ncards env)); [unfold on_click; destruct (responded s)|]; simpl; auto.
  - destruct Htm as [Htm|Htm]; rewrite Htm; [destruct j; simpl; rewrite ?Htm; auto|].
    destruct j as [|j]; simpl; [|destruct j; rewrite ?Htm; auto].
    destruct (Qle_bool (startTime + 5000) now); [|rewrite ?Htm; auto]. simpl.
    destruct (negb (responded s) && cur); [unfold playAudio; destruct (_ && _)|]; simpl; auto.
Qed.

(** On the no-feedback path (test and mixed trials) the screen never
    shows feedback, never highlights a card, no handler ever throws, and
    the only timer ever pending is the 5-second reminder set up at
    [startTime + 5000]. *)
Theorem no_feedback_quiet (env : Env) (trial : Trial) (dim : string) (startTime : Q) (evs : list Event) :
  let R := run env trial false startTime evs (setupTrial env dim false startTime) in
  feedback R = None /\ highlighted R = [] /\ threw R = false /\
  (timers R = [] \/ timers R = [mkTimer (startTime + 5000) CbPrompt]).
Proof.
  intro R. unfold R, run. clear R.
  assert (H0 : let s := setupTrial env dim false startTime in
    feedback s = None /\ highlighted s = [] /\ threw s = false /\
    (timers s = [] \/ timers s = [mkTimer (startTime + 5000) CbPrompt])).
  { unfold setupTrial, playAudio. destruct (_ && _); simpl; auto. }
  revert H0. generalize (setupTrial env dim false startTime).
  induction evs as [|e evs IH]; intros s (Hf & Hh & Ht & Htm); [auto|].
  simpl. apply IH. exact (quiet_step env trial startTime s e Hf Hh Ht Htm).
Qed.

Lemma playAudio_spoken (env : Env) (t : string) (s : TState) :
  spoken (playAudio env t s) =
    (spoken s ++ (if audio_enabled env && speech_available env then [t] else []))%list.
Proof. unfold playAudio. destruct (_ && _); [reflexivity|]. rewrite app_nil_r. reflexivity. Qed.

Ltac close_extra :=
  split; [ repeat (apply Forall_cons || apply Forall_nil); simpl; auto
         | first [ let H := fresh in intro H; discriminate H | intros _; reflexivity ] ].

Lemma step_spoken (env : Env) (trial : Trial) (wf : bool) (startTime : Q) (s : TState) (e : Event) :
  exists extra, spoken (step env trial wf startTime s e) = (spoken s ++ extra)%list /\
    Forall (fun u => In u [msg_right; msg_same_color_audio; msg_prompt]) extra /\
    (audio_enabled env && speech_available env = false -> extra = []).
Proof.
  destruct e as [ci now | j now cur]; simpl.
  - destruct (Nat.ltb ci (ncards env)).
    2: { exists []. rewrite app_nil_r. split; [reflexivity|]. close_extra. }
    unfold on_click. destruct (responded s).
    { exists []. rewrite app_nil_r. split; [reflexivity|]. close_extra. }
    destruct wf.
    2: { exists []. rewrite app_nil_r. split; [reflexivity|]. close_extra. }
    destruct (feedback_div env).
    2: { exists []. rewrite app_nil_r. split; [reflexivity|]. close_extra. }
    destruct (Z.eqb (Z.of_nat ci) (correct trial)); cbn -[playAudio].
    + exists (if audio_enabled env && speech_available env then [msg_right] else []).
      rewrite playAudio_spoken. split; [reflexivity|].
      destruct (audio_enabled env && speech_available env); close_extra.
    + unfold highlight_correct. destruct (js_index (seq 0 (ncards env)) (correct trial)); cbn -[playAudio];
        exists (if audio_enabled env && speech_available env then [msg_same_color_audio] else []);
        rewrite playAudio_spoken; (split; [reflexivity|]);
        destruct (audio_enabled env && speech_available env); close_extra.
  - destruct (nth_error (timers s) j) as [tm|].
    2: { exists []. rewrite app_nil_r. split; [reflexivity|]. close_extra. }
    destruct (Qle_bool (due tm) now).
    2: { exists []. rewrite app_nil_r. split; [reflexivity|]. close_extra. }
    destruct (cb tm); simpl.
    + exists []. rewrite app_nil_r. split; [reflexivity|]. close_extra.
    + destruct (negb (responded s) && cur).
      * exists (if audio_enabled env && speech_available env then [msg_prompt] else []).
        rewrite playAudio_spoken. split; [reflexivity|].
        destruct (audio_enabled env && speech_available env); close_extra.
      * exists []. rewrite app_nil_r. split; [reflexivity|]. close_extra.
Qed.


(** The only utterances a trial makes are the cue word (the dimension
    upper-cased), "That's right!", the color correction and the 5-second
    reminder; with audio disabled or no speech synthesis, none at all. *)
Theorem trial_utterances (env : Env) (trial : Trial) (dim : string) (wf : bool) (startTime : Q)
  (evs : list Event) :
  let R := run env trial wf startTime evs (setupTrial env dim wf startTime) in
  Forall (fun u => In u [toUpperCase dim; msg_right; msg_same_color_audio; msg_prompt]) (spoken R) /\
  (audio_enabled env && speech_available env = false -> spoken R = []).
Proof.
  intro R. unfold R, run. clear R.
  assert (H0 : let s := setupTrial env dim wf startTime in
    Forall (fun u => In u [toUpperCase dim; msg_right; msg_same_color_audio; msg_prompt]) (spoken s) /\
    (audio_enabled env && speech_available env = false -> spoken s = [])).
  { unfold setupTrial. destruct wf; simpl; rewrite playAudio_spoken; simpl;
      destruct (audio_enabled env && speech_available env); simpl;
      (split; [repeat constructor; simpl; auto|]); intro H; try discriminate; reflexivity. }
  revert H0. generalize (setupTrial env dim wf startTime).
  induction evs as [|e evs IH]; intros s (Hall & Hoff); [auto|].
  cbn [fold_left]. apply IH.
  destruct (step_spoken env trial wf startTime s e) as (extra & Hs & Hx & Hxoff).
  cbv zeta. rewrite Hs. split.
  - apply Forall_app. split; [exact Hall|].
    eapply Forall_impl; [|exact Hx]. intros u Hu. simpl in Hu |- *. tauto.
  - intro Ha. rewrite (Hoff Ha), (Hxoff Ha). reflexivity.
Qed.

(** ** Further properties of the results summary *)

(** For a phase with at least one recorded result, the accuracy cell
    shows an integer percentage between 0 and 100: "100%" when every result
    is correct and "0%" when none is. *)
Theorem summary_cell_bounds (all : list Row) (p : string) (Hn : (0 < n_phase all p)%nat) :
  exists k : Z, phase_cell all p = string_of_Z k ++ "%" /\ (0 <= k <= 100)%Z /\
    (c_phase all p = n_phase all p -> k = 100%Z) /\ (c_phase all p = 0%nat -> k = 0%Z).
Proof.
  rewrite phase_cell_accuracy.
  assert (Hcn : (c_phase all p <= n_phase all p)%nat) by (unfold c_phase, n_phase; apply filter_length_le).
  destruct (accuracy_double (Z.of_nat (c_phase all p)) (Z.of_nat (n_phase all p)) ltac:(lia) ltac:(lia))
    as (v & E & Hv0 & Hv).
  rewrite E. unfold toFixed0.
  replace (Qle_bool 0 v) with true by (symmetry; apply Qle_bool_iff; exact Hv0).
  apply Qabs_Qle_condition in Hv.
  set (c := inject_Z (Z.of_nat (c_phase all p))) in *.
  set (n := inject_Z (Z.of_nat (n_phase all p))) in *.
  assert (Hn0 : 0 < n) by (unfold n; change 0 with (inject_Z 0); rewrite <- Zlt_Qlt; lia).
  assert (Hc0 : 0 <= c) by (unfold c; change 0 with (inject_Z 0); rewrite <- Zle_Qle; lia).
  assert (Hcn' : c <= n) by (unfold c, n; rewrite <- Zle_Qle; lia).
  set (q := c / n * 100) in *.
  assert (Hq0 : 0 <= q) by (apply nonneg_ratio_percent; lia).
  assert (Hq1 : q <= 100).
  { unfold q. change 100 with (1 * 100) at 2. apply Qmult_le_compat_r; [|discriminate].
    apply Qle_shift_div_r; [exact Hn0|]. rewrite Qmult_1_l. exact Hcn'. }
  set (k := Qfloor (v + (1 # 2))).
  pose proof (Qfloor_le (v + (1 # 2))) as H1. fold k in H1.
  pose proof (Qlt_floor (v + (1 # 2))) as H2. fold k in H2.
  rewrite inject_Z_plus in H2. change (inject_Z 1) with 1 in H2.
  assert (Hk0 : (0 <= k)%Z).
  { assert (Hx : inject_Z (-1) < inject_Z k) by (change (inject_Z (-1)) with (-1 # 1); lra).
    rewrite <- Zlt_Qlt in Hx. lia. }
  assert (Hk100 : (k <= 100)%Z).
  { assert (Hx : inject_Z k < inject_Z 101) by (change (inject_Z 101) with (101 # 1); lra).
    rewrite <- Zlt_Qlt in Hx. lia. }
  exists k. split; [reflexivity|]. split; [lia|]. split.
  - intro Heq. assert (Hq : q == 100).
    { unfold q. replace c with n by (unfold c, n; rewrite Heq; reflexivity).
      field. intro H0. rewrite H0 in Hn0. discriminate Hn0. }
    assert (Hx : inject_Z 99 < inject_Z k) by (change (inject_Z 99) with (99 # 1); lra).
    rewrite <- Zlt_Qlt in Hx. lia.
  - intro Heq. assert (Hq : q == 0).
    { unfold q. replace c with 0 by (unfold c; rewrite Heq; reflexivity).
      field. intro H0. rewrite H0 in Hn0. discriminate Hn0. }
    assert (Hx : inject_Z k < inject_Z 1) by (change (inject_Z 1) with (1 # 1); lra).
    rewrite <- Zlt_Qlt in Hx. lia.
Qed.

Lemma summary_cell_bounds_witness :
  exists k : Z, phase_cell rows_4_of_5 "color_test" = string_of_Z k ++ "%" /\ (0 <= k <= 100)%Z /\
    (c_phase rows_4_of_5 "color_test" = n_phase rows_4_of_5 "color_test" -> k = 100%Z) /\
    (c_phase rows_4_of_5 "color_test" = 0%nat -> k = 0%Z).
Proof.
  exact (summary_cell_bounds rows_4_of_5 "color_test" ltac:(vm_compute; lia)).
Defined.

Lemma filter_task_foreign (others : list Row) :
  (forall r, In r others -> row_task r <> Some "dccs") ->
  filter (field_is String.eqb row_task "dccs") others = [].
Proof.
  induction others as [|r o IH]; intro Ho; [reflexivity|]. simpl.
  replace (field_is String.eqb row_task "dccs" r) with false.
  - apply IH. intros r' Hr'. apply Ho. right. exact Hr'.
  - unfold field_is. destruct (row_task r) as [x|] eqn:Ex; [|reflexivity].
    destruct (String.eqb_spec x "dccs") as [->|Hne]; [|reflexivity].
    exfalso. exact (Ho r (or_introl eq_refl) Ex).
Qed.

(** The summary reads only the rows of [task: 'dccs']: rows recorded by
    other tasks, wherever they sit in the data, change none of the three
    accuracy cells. *)
Theorem summary_ignores_other_tasks (a others b : list Row)
  (Ho : forall r, In r others -> row_task r <> Some "dccs") :
  createResults_accuracy_cells (a ++ others ++ b) = createResults_accuracy_cells (a ++ b).
Proof.
  unfold createResults_accuracy_cells, filter_task.
  rewrite !filter_app, (filter_task_foreign others Ho). reflexivity.
Qed.

Lemma summary_ignores_other_tasks_witness :
  createResults_accuracy_cells (rows_4_of_5 ++ [foreign_row] ++ []) =
  createResults_accuracy_cells (rows_4_of_5 ++ []).
Proof.
  exact (summary_ignores_other_tasks rows_4_of_5 [foreign_row] []
    (fun r Hr => match Hr with
                 | or_introl E => eq_ind foreign_row (fun r => row_task r <> Some "dccs")
                                    ltac:(unfold foreign_row; simpl; congruence) r E
                 | or_intror F => False_ind _ F
                 end)).
Defined.

Lemma Permutation_filter_rows (f : Row -> bool) (l l' : list Row) :
  Permutation l l' -> Permutation (filter f l) (filter f l').
Proof.
  induction 1 as [|x l l' _ IH|x y l|l l' l'' _ IH1 _ IH2]; simpl.
  - constructor.
  - destruct (f x); [apply perm_skip|]; exact IH.
  - destruct (f x), (f y); try apply perm_swap; apply Permutation_refl.
  - eapply perm_trans; eassumption.
Qed.

Lemma accuracy_perm (l l' : list Row) : Permutation l l' -> accuracy l = accuracy l'.
Proof.
  intro H. unfold accuracy, count, filter_correct.
  rewrite (Permutation_length (Permutation_filter_rows _ _ _ H)), (Permutation_length H).
  reflexivity.
Qed.

(** The accuracy cells depend on the recorded rows, not on their order. *)
Theorem summary_order_independent (all all' : list Row) (Hp : Permutation all all') :
  createResults_accuracy_cells all = createResults_accuracy_cells all'.
Proof.
  unfold createResults_accuracy_cells, filter_phase, filter_task.
  pose proof (Permutation_filter_rows (field_is String.eqb row_task "dccs") _ _ Hp) as Hd.
  rewrite (accuracy_perm _ _ (Permutation_filter_rows (field_is String.eqb row_phase "color_test") _ _ Hd)),
          (accuracy_perm _ _ (Permutation_filter_rows (field_is String.eqb row_phase "shape_test") _ _ Hd)),
          (accuracy_perm _ _ (Permutation_filter_rows (field_is String.eqb row_phase "mixed") _ _ Hd)).
  reflexivity.
Qed.

Lemma summary_order_independent_witness :
  createResults_accuracy_cells rows_4_of_5 = createResults_accuracy_cells (rev rows_4_of_5).
Proof. exact (summary_order_independent rows_4_of_5 (rev rows_4_of_5) (Permutation_rev _)). Defined.
